(** * ForestscapeMIS: the booking API's parsing, filtering and counting helpers

    A shallow embedding of [src/index.js] and of its later revision
    [src/unnamed/part_000].  The two files share [parseNumber],
    [filterByPeriod], [groupCount] and the route handlers; they differ in the
    order of the branches of [parseDate], in the header of the status column
    and in the revenue route, which only the revision equips with [findKey].

    Conventions of the embedding:
    - a JavaScript string is the list of its UTF-16 code units;
    - a JavaScript number is kept as its mathematical value (an exact
      rational, or an exact integer where the code only produces integers);
      the rounding to IEEE doubles and the sign of zero are not represented;
    - [toUpperCase] and [toLowerCase] map the Basic Latin letters and leave
      every other code unit unchanged;
    - what ECMAScript leaves to the host ([Date.parse] on non-ISO text, the
      local time zone) is a [DateHost] record passed to the code;
    - a plain object ([counts], a sheet row) is the list of its own
      properties in creation order; a read of a name it lacks falls back on
      the members of [Object.prototype];
    - an exception is a value of [result]; a spreadsheet read is a node of
      [Handler]. *)

From Stdlib Require Import List ZArith NArith QArith Lia Bool Ascii String.
From Stdlib Require Import Permutation Sorted.
Import ListNotations.

#[local] Open Scope Z_scope.
#[local] Open Scope list_scope.

(** ** Strings *)

Definition jsstring : Type := list N.

(** [str "abc"]: the code units of a Basic Latin literal. *)
Definition str (s : string) : jsstring :=
  map N_of_ascii (list_ascii_of_string s).

Fixpoint jsstring_eqb (s t : jsstring) : bool :=
  match s, t with
  | [], [] => true
  | c :: s', d :: t' => N.eqb c d && jsstring_eqb s' t'
  | _, _ => false
  end.

(** ECMAScript WhiteSpace and LineTerminator: what [\s] matches and what
    [trim] removes. *)
Definition isWhiteSpace (c : N) : bool :=
  ((9 <=? c) && (c <=? 13) || (c =? 32) || (c =? 160) || (c =? 5760)
   || (8192 <=? c) && (c <=? 8202) || (c =? 8232) || (c =? 8233)
   || (c =? 8239) || (c =? 8287) || (c =? 12288) || (c =? 65279))%N.

Definition isDigit (c : N) : bool := ((48 <=? c) && (c <=? 57))%N.

Fixpoint trimStart (s : jsstring) : jsstring :=
  match s with
  | c :: s' => if isWhiteSpace c then trimStart s' else s
  | [] => []
  end.

Definition trimEnd (s : jsstring) : jsstring := rev (trimStart (rev s)).

Definition trim (s : jsstring) : jsstring := trimEnd (trimStart s).

Definition upperUnit (c : N) : N :=
  if ((97 <=? c) && (c <=? 122))%N then (c - 32)%N else c.

Definition lowerUnit (c : N) : N :=
  if ((65 <=? c) && (c <=? 90))%N then (c + 32)%N else c.

Definition toUpperCase (s : jsstring) : jsstring := map upperUnit s.
Definition toLowerCase (s : jsstring) : jsstring := map lowerUnit s.

Fixpoint startsWith (s p : jsstring) : bool :=
  match p, s with
  | [], _ => true
  | d :: p', c :: s' => N.eqb c d && startsWith s' p'
  | _ :: _, [] => false
  end.

(** [s.includes(sub)] *)
Fixpoint includes (s sub : jsstring) : bool :=
  startsWith s sub ||
  match s with
  | [] => false
  | _ :: s' => includes s' sub
  end.

(** [s.replace(/[^...]/g, "")] for a class of single code units: the units
    of the class stay, the others go. *)
Definition keepOnly (keep : N -> bool) (s : jsstring) : jsstring :=
  filter keep s.

(** [s.split(/[...]+/)] for a class of single code units.  [cur] is the
    piece being read, reversed; [skipping] is true inside a run of
    separators.  A separator at either end yields an empty piece there. *)
Fixpoint splitRuns (sep : N -> bool) (s cur : jsstring) (skipping : bool)
  : list jsstring :=
  match s with
  | [] => [rev cur]
  | c :: s' =>
      if sep c then
        if skipping then splitRuns sep s' cur true
        else rev cur :: splitRuns sep s' [] true
      else splitRuns sep s' (c :: cur) false
  end.

Definition splitOn (sep : N -> bool) (s : jsstring) : list jsstring :=
  splitRuns sep s [] false.

(** [s.replace(/\s+/g, " ")]: every run of white space becomes one space. *)
Fixpoint collapseSpaces (s : jsstring) (skipping : bool) : jsstring :=
  match s with
  | [] => []
  | c :: s' =>
      if isWhiteSpace c then
        if skipping then collapseSpaces s' true
        else 32%N :: collapseSpaces s' true
      else c :: collapseSpaces s' false
  end.

(** ** Numbers *)

Inductive number : Type :=
| NaN
| Infinity (negative : bool)
| Finite (q : Q).

Definition isNaN (n : number) : bool :=
  match n with NaN => true | _ => false end.

(** [n > k] and [n < k] for an integer constant [k]; false on NaN. *)
Definition gtConst (n : number) (k : Z) : bool :=
  match n with
  | NaN => false
  | Infinity negative => negb negative
  | Finite q => k * Zpos (Qden q) <? Qnum q
  end.

Definition ltConst (n : number) (k : Z) : bool :=
  match n with
  | NaN => false
  | Infinity negative => negative
  | Finite q => Qnum q <? k * Zpos (Qden q)
  end.

Fixpoint takeWhile {A} (p : A -> bool) (l : list A) : list A :=
  match l with
  | x :: l' => if p x then x :: takeWhile p l' else []
  | [] => []
  end.

Fixpoint dropWhile {A} (p : A -> bool) (l : list A) : list A :=
  match l with
  | x :: l' => if p x then dropWhile p l' else l
  | [] => []
  end.

(** Value of a run of digits in a radix; [digitVal] gives a unit's value. *)
Definition digitsValue (radix : Z) (digitVal : N -> Z) (ds : jsstring) : Z :=
  fold_left (fun acc c => acc * radix + digitVal c) ds 0.

Definition decVal (c : N) : Z := Z.of_N c - 48.

Definition hexVal (c : N) : option Z :=
  if isDigit c then Some (Z.of_N c - 48)
  else if ((97 <=? c) && (c <=? 102))%N then Some (Z.of_N c - 87)
  else if ((65 <=? c) && (c <=? 70))%N then Some (Z.of_N c - 55)
  else None.

Definition isRadixDigit (radix : Z) (c : N) : bool :=
  match hexVal c with
  | Some v => v <? radix
  | None => false
  end.

Definition radixVal (c : N) : Z :=
  match hexVal c with Some v => v | None => 0 end.

(** [0x..], [0o..], [0b..]: no sign, at least one digit. *)
Definition nonDecimalLiteral (t : jsstring) : option Z :=
  match t with
  | z :: p :: d :: ds =>
      let radix :=
        if (p =? 120)%N || (p =? 88)%N then Some 16
        else if (p =? 111)%N || (p =? 79)%N then Some 8
        else if (p =? 98)%N || (p =? 66)%N then Some 2
        else None in
      match radix with
      | Some r =>
          if (z =? 48)%N && forallb (isRadixDigit r) (d :: ds)
          then Some (digitsValue r radixVal (d :: ds)) else None
      | None => None
      end
  | _ => None
  end.

(** The rational [m * 10^e]. *)
Definition scale10 (m e : Z) : Q :=
  if 0 <=? e then Qmake (m * 10 ^ e) 1
  else Qmake m (Z.to_pos (10 ^ (- e))).

(** An optional sign: whether it is a minus, and the text after it. *)
Definition sign (t : jsstring) : bool * jsstring :=
  match t with
  | c :: u =>
      if (c =? 45)%N then (true, u)
      else if (c =? 43)%N then (false, u)
      else (false, t)
  | [] => (false, [])
  end.

(** [ExponentPart] or nothing, up to the end of the text. *)
Definition exponentPart (t : jsstring) : option Z :=
  match t with
  | [] => Some 0
  | e :: t' =>
      if (e =? 101)%N || (e =? 69)%N then
        let '(neg, ds) := sign t' in
        match ds with
        | [] => None
        | _ :: _ =>
            if forallb isDigit ds
            then Some (if neg then - digitsValue 10 decVal ds
                       else digitsValue 10 decVal ds)
            else None
        end
      else None
  end.

(** [StrUnsignedDecimalLiteral] without [Infinity]. *)
Definition unsignedDecimal (t : jsstring) : option Q :=
  let ints := takeWhile isDigit t in
  let rest := dropWhile isDigit t in
  let '(fracs, rest') :=
    match rest with
    | c :: r =>
        if (c =? 46)%N then (takeWhile isDigit r, dropWhile isDigit r)
        else ([], rest)
    | [] => ([], [])
    end in
  match ints ++ fracs with
  | [] => None
  | _ :: _ =>
      match exponentPart rest' with
      | Some e =>
          Some (scale10 (digitsValue 10 decVal (ints ++ fracs))
                        (e - Z.of_nat (List.length fracs)))
      | None => None
      end
  end.

Definition strDecimalLiteral (t : jsstring) : number :=
  let '(neg, u) := sign t in
  if jsstring_eqb u (str "Infinity") then Infinity neg
  else match unsignedDecimal u with
       | Some q => Finite (if neg then Qopp q else q)
       | None => NaN
       end.

(** [Number(s)] on a string: StringToNumber. *)
Definition Number (s : jsstring) : number :=
  match trim s with
  | [] => Finite 0
  | t =>
      match nonDecimalLiteral t with
      | Some n => Finite (inject_Z n)
      | None => strDecimalLiteral t
      end
  end.

(** [parseInt(s, 10)]: an integer, or [None] for NaN. *)
Definition parseInt10 (s : jsstring) : option Z :=
  let '(neg, u) := sign (trimStart s) in
  match takeWhile isDigit u with
  | [] => None
  | ds => Some (if neg then - digitsValue 10 decVal ds
                else digitsValue 10 decVal ds)
  end.

(** [String(n)] for the integers the date parser produces, and for NaN. *)
Fixpoint uintUnits (d : Decimal.uint) : jsstring :=
  match d with
  | Decimal.Nil => []
  | Decimal.D0 d' => 48%N :: uintUnits d'
  | Decimal.D1 d' => 49%N :: uintUnits d'
  | Decimal.D2 d' => 50%N :: uintUnits d'
  | Decimal.D3 d' => 51%N :: uintUnits d'
  | Decimal.D4 d' => 52%N :: uintUnits d'
  | Decimal.D5 d' => 53%N :: uintUnits d'
  | Decimal.D6 d' => 54%N :: uintUnits d'
  | Decimal.D7 d' => 55%N :: uintUnits d'
  | Decimal.D8 d' => 56%N :: uintUnits d'
  | Decimal.D9 d' => 57%N :: uintUnits d'
  end.

Definition intToString (n : option Z) : jsstring :=
  match n with
  | None => str "NaN"
  | Some z =>
      if z <? 0 then 45%N :: uintUnits (N.to_uint (Z.to_N (- z)))
      else uintUnits (N.to_uint (Z.to_N z))
  end.

(** [s.padStart(len, "0")] *)
Definition padStart0 (len : nat) (s : jsstring) : jsstring :=
  repeat 48%N (len - List.length s) ++ s.

(** [!n] for an integer-or-NaN. *)
Definition falsyInt (n : option Z) : bool :=
  match n with
  | None => true
  | Some z => z =? 0
  end.

(** [n > 12]; false on NaN. *)
Definition intGt (n : option Z) (k : Z) : bool :=
  match n with
  | None => false
  | Some z => k <? z
  end.

(** ** Values, exceptions, records *)

(** What a property read or a query parameter can yield here: [VObject]
    stands for any object or function, with the text [String] gives for it. *)
Inductive value : Type :=
| VUndefined
| VNull
| VString (s : jsstring)
| VObject (text : jsstring).

Definition truthy (v : value) : bool :=
  match v with
  | VUndefined | VNull | VString [] => false
  | VString (_ :: _) | VObject _ => true
  end.

(** [String(v)] *)
Definition toString (v : value) : jsstring :=
  match v with
  | VUndefined => str "undefined"
  | VNull => str "null"
  | VString s => s
  | VObject text => text
  end.

(** [v === "literal"] *)
Definition strictEq (v : value) (s : jsstring) : bool :=
  match v with
  | VString t => jsstring_eqb t s
  | _ => false
  end.

(** What can be thrown: a TypeError of the language, or the rejection of
    the spreadsheet read. *)
Inductive error : Type := TypeError | FetchError.

Inductive result (A : Type) : Type :=
| Ok (a : A)
| Throw (e : error).
Arguments Ok {A} a.
Arguments Throw {A} e.

Definition bind {A B} (r : result A) (k : A -> result B) : result B :=
  match r with
  | Ok a => k a
  | Throw e => Throw e
  end.

Notation "x <- r ;; k" := (bind r (fun x => k))
  (at level 61, r at next level, right associativity).

(** [v.method(...)] for a method of [String.prototype]: a TypeError unless
    [v] is a string. *)
Definition onString {A} (v : value) (method : jsstring -> A) : result A :=
  match v with
  | VString s => Ok (method s)
  | _ => Throw TypeError
  end.

(** [array.filter(callback)] with a callback that may throw. *)
Fixpoint filterR {A} (callback : A -> result bool) (l : list A)
  : result (list A) :=
  match l with
  | [] => Ok []
  | x :: l' =>
      keep <- callback x ;;
      rest <- filterR callback l' ;;
      Ok (if keep then x :: rest else rest)
  end.

(** A native function under its name, with the text [String] gives for
    it. *)
Definition nativeFunction (name : string) : jsstring * jsstring :=
  (str name, str ("function " ++ name ++ "() { [native code] }")).

(** The members every plain object inherits from [Object.prototype], with
    the text [String] gives for each: the accessor [__proto__] reads as
    [Object.prototype] itself, the others are native functions. *)
Definition objectPrototype : list (jsstring * jsstring) :=
  [ (str "constructor", str "function Object() { [native code] }");
    nativeFunction "__defineGetter__";
    nativeFunction "__defineSetter__";
    nativeFunction "hasOwnProperty";
    nativeFunction "__lookupGetter__";
    nativeFunction "__lookupSetter__";
    nativeFunction "isPrototypeOf";
    nativeFunction "propertyIsEnumerable";
    nativeFunction "toString";
    nativeFunction "valueOf";
    (str "__proto__", str "[object Object]");
    nativeFunction "toLocaleString" ].

Fixpoint assoc {B} (k : jsstring) (l : list (jsstring * B)) : option B :=
  match l with
  | [] => None
  | (k', b) :: l' => if jsstring_eqb k' k then Some b else assoc k l'
  end.

(** A sheet row as [getRows] builds it: header text to cell text. *)
Definition Row : Type := list (jsstring * jsstring).

(** [row[key]]: the row's own cell, else what [Object.prototype] holds
    under that name, else undefined. *)
Definition getField (row : Row) (key : jsstring) : value :=
  match assoc key row with
  | Some cell => VString cell
  | None =>
      match assoc key objectPrototype with
      | Some text => VObject text
      | None => VUndefined
      end
  end.

(** [v || fallback] *)
Definition orElse (v fallback : value) : value :=
  if truthy v then v else fallback.

(** ** The two source files and their column table *)

Inductive SourceFile : Type := index_js | part_000.

(** The entries of [COLS] the modelled code reads. *)
Module COLS.
Definition CLUSTER := str "Cluster".
Definition BOOKING_DATE := str "Booking Date".
Definition UNIT_NO := str "Unit No.".
Definition SOLD_STATUS (f : SourceFile) :=
  match f with
  | index_js => str "SOLD/UNSOLD"
  | part_000 => str "SOLD/UNSO"
  end.
Definition MOBILE := str "Mobile Number".
Definition SALE_PRICE := str "Sale Price".
Definition GROSS_SALE_VALUE_NO_GST := str "Gross Sale Value without GST".
Definition GROSS_AMOUNT_RECEIVED := str "Gross Amount Received".
Definition PENDING_DEMAND := str "Pending Demand".
Definition RECEIVABLES := str "Receivables".
Definition HOME_LOAN_FINANCED_BY := str "Home Loan Financed by".
Definition LOAN_STATUS := str "Loan Status".
Definition CUSTOMER_NAME := str "Customer name".
Definition SALE_AGREEMENT_STATUS := str "Sale Agreement Status".
Definition DEMAND_PERCENT := str "Demand as on Date (%)".
Definition DEMAND_VALUE := str "Demand as on Date (Value)".
End COLS.

(** ** parseNumber *)

(** The class [[0-9.\-]]. *)
Definition isNumberUnit (c : N) : bool :=
  isDigit c || (c =? 46)%N || (c =? 45)%N.

Definition parseNumber (v : value) : number :=
  if negb (truthy v) then Finite 0
  else
    let cleaned := keepOnly isNumberUnit (toString v) in
    let n := Number cleaned in
    if isNaN n then Finite 0 else n.

(** ** Dates *)

(** The time value of a Date object: milliseconds since the epoch, or
    [None] for the NaN of an invalid date. *)
Definition timevalue : Type := option Z.

Record Date : Type := mkDate { getTime : timevalue }.

(** What the code asks of the host's [Date]: the parse of a text, the
    local-time fields of an instant, the instant of a local calendar day
    ([new Date(year, monthIndex, day)]) and the instant a copy of a date
    shows after [setDate(day)]. *)
Record DateHost : Type := mkHost {
  Date_parse : jsstring -> timevalue;
  getFullYear : Z -> Z;
  getMonth : Z -> Z;
  getDate : Z -> Z;
  Date_ymd : Z -> Z -> Z -> timevalue;
  setDate : Z -> Z -> timevalue
}.

(** [isNaN(d.getTime())] *)
Definition isInvalid (d : Date) : bool :=
  match getTime d with None => true | Some _ => false end.

(** [x >= y], [x <= y] and [x < y] on time values; false when either is
    NaN. *)
Definition timeGe (x y : timevalue) : bool :=
  match x, y with Some a, Some b => b <=? a | _, _ => false end.
Definition timeLe (x y : timevalue) : bool :=
  match x, y with Some a, Some b => a <=? b | _, _ => false end.
Definition timeLt (x y : timevalue) : bool :=
  match x, y with Some a, Some b => a <? b | _, _ => false end.

(** The class [[\/\-\s:]]. *)
Definition isDateSeparator (c : N) : bool :=
  (c =? 47)%N || (c =? 45)%N || isWhiteSpace c || (c =? 58)%N.

(** The variables [day], [month] and [year] of [parseDate]: integers, or
    [None] for NaN. *)
Record DMY : Type := mkDMY {
  day : option Z;
  month : option Z;
  year : option Z
}.

(** [x.length === 4 && Number(x) > 1900] *)
Definition yearFirstTest (a : jsstring) : bool :=
  (List.length a =? 4)%nat && gtConst (Number a) 1900.

(** [x.length === 4 && Number(x) > 1900 && Number(x) < 3000] *)
Definition yearLastTest (c : jsstring) : bool :=
  (List.length c =? 4)%nat && gtConst (Number c) 1900
  && ltConst (Number c) 3000.

(** The branch bodies of [parseDate]. *)
Definition yearMonthDay (a b c : jsstring) : DMY :=
  {| year := parseInt10 a; month := parseInt10 b; day := parseInt10 c |}.

Definition dayOrMonthFirst (a b c : jsstring) : DMY :=
  if intGt (parseInt10 a) 12
  then {| day := parseInt10 a; month := parseInt10 b; year := parseInt10 c |}
  else {| month := parseInt10 a; day := parseInt10 b; year := parseInt10 c |}.

(** The chain of tests that assigns [day], [month] and [year]: the last
    component is tested first in [index.js], the first component first in
    the revision. *)
Definition dateComponents (f : SourceFile) (a b c : jsstring) : DMY :=
  match f with
  | index_js =>
      if yearLastTest c then dayOrMonthFirst a b c
      else if yearFirstTest a then yearMonthDay a b c
      else dayOrMonthFirst a b c
  | part_000 =>
      if yearFirstTest a then yearMonthDay a b c
      else if yearLastTest c then dayOrMonthFirst a b c
      else dayOrMonthFirst a b c
  end.

(** The template [`${year}-${month 2 digits}-${day 2 digits}T00:00:00`]. *)
Definition isoText (x : DMY) : jsstring :=
  intToString (year x) ++ str "-"
  ++ padStart0 2 (intToString (month x)) ++ str "-"
  ++ padStart0 2 (intToString (day x)) ++ str "T00:00:00".

(** The tail of [parseDate]: null when a component is falsy or the
    rebuilt text does not parse. *)
Definition fromComponents (H : DateHost) (x : DMY) : option Date :=
  if falsyInt (day x) || falsyInt (month x) || falsyInt (year x) then None
  else
    let d := mkDate (Date_parse H (isoText x)) in
    if isInvalid d then None else Some d.

(** [x.trim()] on an array element: a TypeError when the element is
    missing. *)
Definition trimElement (parts : list jsstring) (i : nat) : result jsstring :=
  match nth_error parts i with
  | Some x => Ok (trim x)
  | None => Throw TypeError
  end.

Definition parseDate (f : SourceFile) (H : DateHost) (v : value)
  : result (option Date) :=
  if negb (truthy v) then Ok None
  else
    let clean := trim (toString v) in
    match clean with
    | [] => Ok None
    | _ :: _ =>
        let direct := mkDate (Date_parse H clean) in
        if negb (isInvalid direct) then Ok (Some direct)
        else
          let parts := splitOn isDateSeparator clean in
          if (List.length parts <? 3)%nat then Ok None
          else
            a <- trimElement parts 0 ;;
            b <- trimElement parts 1 ;;
            c <- trimElement parts 2 ;;
            Ok (fromComponents H (dateComponents f a b c))
    end.

(** ** filterByPeriod *)

(** The instants [filterByPeriod] derives from [now] before it filters. *)
Definition startOfToday (H : DateHost) (now : Z) : timevalue :=
  Date_ymd H (getFullYear H now) (getMonth H now) (getDate H now).
Definition endOfToday (H : DateHost) (now : Z) : timevalue :=
  Date_ymd H (getFullYear H now) (getMonth H now) (getDate H now + 1).
Definition oneWeekAgo (H : DateHost) (now : Z) : timevalue :=
  setDate H now (getDate H now - 7).
Definition startOfMonth (H : DateHost) (now : Z) : timevalue :=
  Date_ymd H (getFullYear H now) (getMonth H now) 1.
Definition endOfMonth (H : DateHost) (now : Z) : timevalue :=
  Date_ymd H (getFullYear H now) (getMonth H now + 1) 1.

(** The [switch] of the filter callback on a parsed date [d]. *)
Definition inPeriod (H : DateHost) (now : Z) (period : value) (d : Date)
  : bool :=
  if strictEq period (str "today") then
    timeGe (getTime d) (startOfToday H now)
    && timeLt (getTime d) (endOfToday H now)
  else if strictEq period (str "this_week") then
    timeGe (getTime d) (oneWeekAgo H now) && timeLe (getTime d) (Some now)
  else if strictEq period (str "this_month") then
    timeGe (getTime d) (startOfMonth H now)
    && timeLt (getTime d) (endOfMonth H now)
  else true.

(** [now] is the instant [new Date()] reads from the clock. *)
Definition filterByPeriod (f : SourceFile) (H : DateHost) (now : Z)
    (data : list Row) (period : value) (dateColumn : jsstring)
  : result (list Row) :=
  filterR
    (fun row =>
       d <- parseDate f H (getField row dateColumn) ;;
       match d with
       | None => Ok false
       | Some d' => Ok (inPeriod H now period d')
       end)
    data.

(** ** groupCount *)

(** What a property of [counts] can hold: a number, or the string that
    [+ 1] makes of an inherited member. *)
Inductive countval : Type :=
| CNum (n : Z)
| CStr (s : jsstring).

(** The own properties of [counts], in creation order. *)
Definition Counts : Type := list (jsstring * countval).

(** [(counts[val] || 0) + 1]: an own count is incremented; a name that
    [counts] lacks but [Object.prototype] has reads as that member, which
    is truthy, and [+ 1] appends to its text. *)
Definition increment (counts : Counts) (val : jsstring) : countval :=
  match assoc val counts with
  | Some (CNum n) => CNum (n + 1)
  | Some (CStr []) => CNum 1
  | Some (CStr (c :: s)) => CStr ((c :: s) ++ str "1")
  | None =>
      match assoc val objectPrototype with
      | Some text => CStr (text ++ str "1")
      | None => CNum 1
      end
  end.

Fixpoint update (val : jsstring) (x : countval) (counts : Counts) : Counts :=
  match counts with
  | [] => []
  | (k, y) :: rest =>
      if jsstring_eqb k val then (k, x) :: rest
      else (k, y) :: update val x rest
  end.

(** [counts[val] = x]: an own property is overwritten in place; otherwise
    the name [__proto__] reaches the setter of [Object.prototype], which
    ignores a number or a string, and any other name becomes a new own
    property. *)
Definition assign (counts : Counts) (val : jsstring) (x : countval) : Counts :=
  match assoc val counts with
  | Some _ => update val x counts
  | None =>
      if jsstring_eqb val (str "__proto__") then counts
      else counts ++ [(val, x)]
  end.

(** [(row[key] || "Unknown").trim() || "Unknown"] *)
Definition groupLabel (row : Row) (key : jsstring) : result jsstring :=
  t <- onString (orElse (getField row key) (VString (str "Unknown"))) trim ;;
  Ok (match t with
      | [] => str "Unknown"
      | _ :: _ => t
      end).

(** The [forEach] loop. *)
Fixpoint tally (data : list Row) (key : jsstring) (counts : Counts)
  : result Counts :=
  match data with
  | [] => Ok counts
  | row :: rest =>
      val <- groupLabel row key ;;
      tally rest key (assign counts val (increment counts val))
  end.

(** A key that is an array index: a canonical decimal below [2^32 - 1]. *)
Definition arrayIndex (k : jsstring) : option Z :=
  match k with
  | [] => None
  | c :: rest =>
      if forallb isDigit k
         && (negb (c =? 48)%N || (List.length rest =? 0)%nat)
         && (digitsValue 10 decVal k <? 4294967295)
      then Some (digitsValue 10 decVal k)
      else None
  end.

Definition isIndexKey {B} (e : jsstring * B) : bool :=
  match arrayIndex (fst e) with Some _ => true | None => false end.

Definition indexOf {B} (e : jsstring * B) : Z :=
  match arrayIndex (fst e) with Some i => i | None => 0 end.

Fixpoint insertByIndex {B} (e : jsstring * B) (l : list (jsstring * B))
  : list (jsstring * B) :=
  match l with
  | [] => [e]
  | e' :: l' =>
      if indexOf e' <? indexOf e then e' :: insertByIndex e l'
      else e :: l
  end.

(** [Object.entries(o)]: the array-index keys in ascending order, then
    the other keys in creation order. *)
Definition Object_entries {B} (o : list (jsstring * B))
  : list (jsstring * B) :=
  fold_right insertByIndex [] (filter isIndexKey o)
  ++ filter (fun e => negb (isIndexKey e)) o.

(** [Number(x)] of a count, and [x - y]. *)
Definition countNumber (c : countval) : number :=
  match c with
  | CNum n => Finite (inject_Z n)
  | CStr s => Number s
  end.

Definition minus (x y : number) : number :=
  match x, y with
  | NaN, _ | _, NaN => NaN
  | Infinity s, Infinity t => if Bool.eqb s t then NaN else Infinity s
  | Infinity s, Finite _ => Infinity s
  | Finite _, Infinity t => Infinity (negb t)
  | Finite p, Finite q => Finite (Qminus p q)
  end.

(** The comparator [(a, b) => b[1] - a[1]]. *)
Definition byCountDescending (a b : jsstring * countval) : number :=
  minus (countNumber (snd b)) (countNumber (snd a)).

(** [array.sort(comparator)], a stable sort: an element moves behind those
    for which the comparator is positive and stays ahead of the others,
    its equals and the NaN results included.  (Where a comparator is not
    consistent the language leaves the order to the implementation; on
    numeric counts this one is consistent.) *)
Fixpoint insertSorted {A} (comparator : A -> A -> number) (a : A)
    (l : list A) : list A :=
  match l with
  | [] => [a]
  | b :: l' =>
      if gtConst (comparator a b) 0 then b :: insertSorted comparator a l'
      else a :: l
  end.

Definition sort {A} (comparator : A -> A -> number) (l : list A) : list A :=
  fold_right (insertSorted comparator) [] l.

(** An element [{ label, count }] of the result. *)
Record Group : Type := mkGroup { label : jsstring; count : countval }.

Definition groupCount (data : list Row) (key : jsstring)
  : result (list Group) :=
  counts <- tally data key [] ;;
  Ok (map (fun e => {| label := fst e; count := snd e |})
          (sort byCountDescending (Object_entries counts))).

(** ** Route handlers *)

(** What a handler sends: [res.json(...)] with status 200 unless
    [res.status(...)] came first. *)
Inductive Body : Type :=
| ErrorBody (error : jsstring)
| SummaryBody (period : value) (total_bookings sold unsold : nat)
              (by_cluster : list Group)
| CustomersBody (count : nat) (customers : list Row).

Record Response : Type := mkResponse { status : Z; body : Body }.

(** A handler either has its response, or awaits [getRows()] and goes on
    with what the read yields: the rows, or the rejection. *)
Inductive Handler : Type :=
| Send (r : Response)
| GetRows (k : result (list Row) -> Handler).

(** Runs a handler against a sheet; also counts the reads it issued. *)
Fixpoint run (h : Handler) (sheet : result (list Row)) : Response * nat :=
  match h with
  | Send r => (r, O)
  | GetRows k => let '(r, n) := run (k sheet) sheet in (r, S n)
  end.

(** [try { ... } catch { res.status(500).json({error}) }] *)
Definition catch (r : result Response) (message : string) : Response :=
  match r with
  | Ok response => response
  | Throw _ => {| status := 500; body := ErrorBody (str message) |}
  end.

(** [(r[column] || "").toUpperCase().includes(word)] *)
Definition statusIncludes (column word : jsstring) (r : Row) : result bool :=
  onString (orElse (getField r column) (VString []))
           (fun s => includes (toUpperCase s) word).

(** GET /bookings/summary; [period] is [req.query.period]. *)
Definition bookingsSummary (f : SourceFile) (H : DateHost) (now : Z)
    (period : value) : Handler :=
  let period :=
    match period with
    | VUndefined => VString (str "this_month")
    | _ => period
    end in
  GetRows (fun loaded =>
    Send (catch
      (data <- loaded ;;
       filtered <- filterByPeriod f H now data period COLS.BOOKING_DATE ;;
       let total := List.length filtered in
       sold <- filterR (statusIncludes (COLS.SOLD_STATUS f) (str "SOLD"))
                       filtered ;;
       unsold <- filterR (statusIncludes (COLS.SOLD_STATUS f) (str "UNSOLD"))
                         filtered ;;
       byCluster <- groupCount filtered COLS.CLUSTER ;;
       Ok {| status := 200;
             body := SummaryBody period total (List.length sold)
                                 (List.length unsold) byCluster |})
      "Failed to get bookings summary")).

(** GET /customer; [mobile] and [unit] are the query parameters. *)
Definition customer (mobile unit : value) : Handler :=
  if negb (truthy mobile) && negb (truthy unit) then
    Send {| status := 400;
            body := ErrorBody (str "Provide mobile or unit query") |}
  else
    GetRows (fun loaded =>
      Send (catch
        (data <- loaded ;;
         byMobile <-
           (if truthy mobile then
              m <- onString mobile (keepOnly isDigit) ;;
              filterR
                (fun r =>
                   Ok (includes
                         (keepOnly isDigit
                            (toString (orElse (getField r COLS.MOBILE)
                                              (VString []))))
                         m))
                data
            else Ok data) ;;
         byUnit <-
           (if truthy unit then
              filterR
                (fun r =>
                   cell <- onString (orElse (getField r COLS.UNIT_NO)
                                            (VString []))
                                    toLowerCase ;;
                   wanted <- onString unit toLowerCase ;;
                   Ok (jsstring_eqb cell wanted))
                byMobile
            else Ok byMobile) ;;
         Ok {| status := 200;
               body := CustomersBody (List.length byUnit) byUnit |})
        "Failed to lookup customer")).

(** ** Header resolution of the revenue route (the revision only) *)

(** [norm]: lower case, runs of white space collapsed, trimmed. *)
Definition norm (s : jsstring) : jsstring :=
  trim (collapseSpaces (toLowerCase s) false).

(** [keys.find(predicate)] *)
Definition find (predicate : jsstring -> bool) (keys : list jsstring)
  : value :=
  match List.find predicate keys with
  | Some k => VString k
  | None => VUndefined
  end.

(** [keys] is [Object.keys(data[0])]. *)
Definition findKey (keys : list jsstring) (label : jsstring) : value :=
  let target := norm label in
  orElse (find (fun k => jsstring_eqb (norm k) target) keys)
         (find (fun k => includes (norm k) target) keys).

(** The logical fields the revenue route resolves. *)
Inductive RevenueField : Type :=
| SalePrice | GrossNoGst | Received | PendingDemand | Receivables.

(** The literal the route passes to [findKey] first. *)
Definition fieldLabel (x : RevenueField) : jsstring :=
  match x with
  | SalePrice => str "Sale Price"
  | GrossNoGst => str "Gross Sale Value without GST"
  | Received => str "Gross Amount Received"
  | PendingDemand => str "Pending Demand"
  | Receivables => str "Receivables"
  end.

(** The [COLS] entry it falls back to. *)
Definition fieldDefault (x : RevenueField) : jsstring :=
  match x with
  | SalePrice => COLS.SALE_PRICE
  | GrossNoGst => COLS.GROSS_SALE_VALUE_NO_GST
  | Received => COLS.GROSS_AMOUNT_RECEIVED
  | PendingDemand => COLS.PENDING_DEMAND
  | Receivables => COLS.RECEIVABLES
  end.

(** [findKey(label) || findKey(COLS.X) || COLS.X], as for [salePriceKey]
    and its four siblings. *)
Definition resolveKey (keys : list jsstring) (x : RevenueField) : value :=
  orElse (findKey keys (fieldLabel x))
         (orElse (findKey keys (fieldDefault x)) (VString (fieldDefault x))).

(** ** A sample host

    A host on UTC whose [Date.parse] accepts the ECMAScript forms
    [YYYY-MM-DD] and [YYYY-MM-DDTHH:mm:ss] and nothing else.  The
    language leaves every other text to the implementation; this one
    gives the examples below something to run on. *)
Module SampleHost.

Definition msPerDay : Z := 86400000.

(** Day number of a civil date (proleptic Gregorian, month 1..12). *)
Definition daysFromCivil (y m d : Z) : Z :=
  let y' := if m <=? 2 then y - 1 else y in
  let era := y' / 400 in
  let yoe := y' - era * 400 in
  let doy := (153 * (if 2 <? m then m - 3 else m + 9) + 2) / 5 + d - 1 in
  era * 146097 + (yoe * 365 + yoe / 4 - yoe / 100 + doy) - 719468.

(** Civil date [(year, month 1..12, day)] of a day number. *)
Definition civilFromDays (z : Z) : Z * Z * Z :=
  let z' := z + 719468 in
  let era := z' / 146097 in
  let doe := z' - era * 146097 in
  let yoe := (doe - doe / 1460 + doe / 36524 - doe / 146096) / 365 in
  let doy := doe - (365 * yoe + yoe / 4 - yoe / 100) in
  let mp := (5 * doy + 2) / 153 in
  let d := doy - (153 * mp + 2) / 5 + 1 in
  let m := if mp <? 10 then mp + 3 else mp - 9 in
  (if m <=? 2 then yoe + era * 400 + 1 else yoe + era * 400, m, d).

Definition timeClip (t : Z) : timevalue :=
  if Z.abs t <=? 8640000000000000 then Some t else None.

(** MakeDay: months beyond a year carry over, days beyond a month too. *)
Definition makeDay (y monthIndex d : Z) : Z :=
  daysFromCivil (y + monthIndex / 12) (monthIndex mod 12 + 1) 1 + d - 1.

Definition fullYear (t : Z) : Z := fst (fst (civilFromDays (t / msPerDay))).
Definition monthIndex (t : Z) : Z :=
  snd (fst (civilFromDays (t / msPerDay))) - 1.
Definition dayOfMonth (t : Z) : Z := snd (civilFromDays (t / msPerDay)).

Definition ymd (y monthIndex d : Z) : timevalue :=
  let y' := if (0 <=? y) && (y <=? 99) then 1900 + y else y in
  timeClip (makeDay y' monthIndex d * msPerDay).

Definition withDate (t d : Z) : timevalue :=
  timeClip (makeDay (fullYear t) (monthIndex t) d * msPerDay
            + t mod msPerDay).

Definition daysInMonth (y m : Z) : Z :=
  daysFromCivil (y + m / 12) (m mod 12 + 1) 1 - daysFromCivil y m 1.

Definition digits (ds : jsstring) : option Z :=
  if forallb isDigit ds then Some (digitsValue 10 decVal ds) else None.

Definition timeOfDay (rest : jsstring) : option Z :=
  match rest with
  | [] => Some 0
  | [84%N; h1; h2; 58%N; m1; m2; 58%N; s1; s2] =>
      match digits [h1; h2], digits [m1; m2], digits [s1; s2] with
      | Some h, Some m, Some s =>
          if (h <? 24) && (m <? 60) && (s <? 60)
          then Some ((h * 60 + m) * 60000 + s * 1000)
          else None
      | _, _, _ => None
      end
  | _ => None
  end.

Definition parse (s : jsstring) : timevalue :=
  match s with
  | y1 :: y2 :: y3 :: y4 :: 45%N :: m1 :: m2 :: 45%N :: d1 :: d2 :: rest =>
      match digits [y1; y2; y3; y4], digits [m1; m2], digits [d1; d2],
            timeOfDay rest with
      | Some y, Some m, Some d, Some ms =>
          if (1 <=? m) && (m <=? 12) && (1 <=? d) && (d <=? daysInMonth y m)
          then timeClip (daysFromCivil y m d * msPerDay + ms)
          else None
      | _, _, _, _ => None
      end
  | _ => None
  end.

Definition host : DateHost :=
  {| Date_parse := parse;
     getFullYear := fullYear;
     getMonth := monthIndex;
     getDate := dayOfMonth;
     Date_ymd := ymd;
     setDate := withDate |}.

End SampleHost.

(** * The row loader and the other routes *)

(** ** getRows *)

(** [o[k] = x] by CreateDataProperty: an own property keeps its place and
    takes the new value, a new name goes last. *)
Fixpoint setOwn {B} (k : jsstring) (x : B) (o : list (jsstring * B))
  : list (jsstring * B) :=
  match o with
  | [] => [(k, x)]
  | (k', y) :: rest =>
      if jsstring_eqb k' k then (k', x) :: rest
      else (k', y) :: setOwn k x rest
  end.

(** [Object.fromEntries(entries)] *)
Definition fromEntries (entries : list (jsstring * jsstring)) : Row :=
  fold_left (fun o e => setOwn (fst e) (snd e) o) entries [].

(** [(r[i] || "").trim()] *)
Definition cellAt (r : list jsstring) (i : nat) : jsstring :=
  trim (match nth_error r i with
        | Some cell => cell
        | None => []
        end).

(** [headers.map((h, i) => [h, (r[i] || "").trim()])], from index [i]
    on. *)
Fixpoint entriesFrom (i : nat) (headers : list jsstring) (r : list jsstring)
  : list (jsstring * jsstring) :=
  match headers with
  | [] => []
  | h :: rest => (h, cellAt r i) :: entriesFrom (S i) rest r
  end.

(** [getRows] after the read: [values] is [result.data.values], absent
    when the range is empty; its first row holds the headers. *)
Definition getRows (values : option (list (list jsstring))) : list Row :=
  match values with
  | None | Some [] => []
  | Some (header :: rows) =>
      let headers := map trim header in
      map (fun r => fromEntries (entriesFrom 0 headers r)) rows
  end.

(** ** Routes over any body *)

(** What a route sends: the [{error}] of its [catch], or its own body. *)
Inductive Answer (B : Type) : Type :=
| Failed (error : jsstring)
| Json (b : B).
Arguments Failed {B} error.
Arguments Json {B} b.

Record Reply (B : Type) : Type := mkReply { code : Z; answer : Answer B }.
Arguments mkReply {B} code answer.
Arguments code {B} r.
Arguments answer {B} r.

(** A route has its reply, or awaits [getRows()] first. *)
Inductive Route (B : Type) : Type :=
| Respond (r : Reply B)
| AwaitRows (k : result (list Row) -> Route B).
Arguments Respond {B} r.
Arguments AwaitRows {B} k.

(** Serves a request against a sheet; also counts the reads issued. *)
Fixpoint serve {B} (route : Route B) (sheet : result (list Row))
  : Reply B * nat :=
  match route with
  | Respond r => (r, O)
  | AwaitRows k => let '(r, n) := serve (k sheet) sheet in (r, S n)
  end.

(** [res.json(body)] inside [try], [res.status(500).json({error})] in
    [catch]. *)
Definition orFail {B} (r : result B) (message : string) : Reply B :=
  match r with
  | Ok b => {| code := 200; answer := Json b |}
  | Throw _ => {| code := 500; answer := Failed (str message) |}
  end.

(** [data = filterByPeriod(...)] under [if (period)]. *)
Definition whenPeriod (f : SourceFile) (H : DateHost) (now : Z)
    (period : value) (data : list Row) : result (list Row) :=
  if truthy period
  then filterByPeriod f H now data period COLS.BOOKING_DATE
  else Ok data.

(** ** GET /bookings *)

Record BookingsBody : Type := mkBookings {
  bookings_count : nat;
  bookings_rows : list Row
}.

(** [(r[column] || "").toLowerCase() === wanted.toLowerCase()] *)
Definition cellEquals (column : jsstring) (wanted : value) (r : Row)
  : result bool :=
  cell <- onString (orElse (getField r column) (VString [])) toLowerCase ;;
  w <- onString wanted toLowerCase ;;
  Ok (jsstring_eqb cell w).

(** [(r[column] || "").toLowerCase().includes(wanted.toLowerCase())] *)
Definition cellIncludes (column : jsstring) (wanted : value) (r : Row)
  : result bool :=
  cell <- onString (orElse (getField r column) (VString [])) toLowerCase ;;
  w <- onString wanted toLowerCase ;;
  Ok (includes cell w).

(** [cluster], [status] and [period] are the query parameters. *)
Definition bookings (f : SourceFile) (H : DateHost) (now : Z)
    (cluster status period : value) : Route BookingsBody :=
  AwaitRows (fun loaded =>
    Respond (orFail
      (data <- loaded ;;
       data <- whenPeriod f H now period data ;;
       data <- (if truthy cluster
                then filterR (cellEquals COLS.CLUSTER cluster) data
                else Ok data) ;;
       data <- (if truthy status
                then filterR (cellIncludes (COLS.SOLD_STATUS f) status) data
                else Ok data) ;;
       Ok {| bookings_count := List.length data; bookings_rows := data |})
      "Failed to list bookings")).

(** ** GET /revenue/summary *)

(** [x + y] on numbers. *)
Definition plus (x y : number) : number :=
  match x, y with
  | NaN, _ | _, NaN => NaN
  | Infinity s, Infinity t => if Bool.eqb s t then Infinity s else NaN
  | Infinity s, Finite _ => Infinity s
  | Finite _, Infinity t => Infinity t
  | Finite p, Finite q => Finite (Qplus p q)
  end.

(** The five accumulators of the route. *)
Record Totals : Type := mkTotals {
  total_sale_price : number;
  total_gross_sale_value_without_gst : number;
  total_gross_amount_received : number;
  total_pending_demand : number;
  total_receivables : number
}.

Definition zeroTotals : Totals :=
  {| total_sale_price := Finite 0;
     total_gross_sale_value_without_gst := Finite 0;
     total_gross_amount_received := Finite 0;
     total_pending_demand := Finite 0;
     total_receivables := Finite 0 |}.

(** One turn of the [forEach] loop; [key] gives the property name read
    for each field. *)
Definition addRow (key : RevenueField -> jsstring) (t : Totals) (r : Row)
  : Totals :=
  {| total_sale_price :=
       plus (total_sale_price t) (parseNumber (getField r (key SalePrice)));
     total_gross_sale_value_without_gst :=
       plus (total_gross_sale_value_without_gst t)
            (parseNumber (getField r (key GrossNoGst)));
     total_gross_amount_received :=
       plus (total_gross_amount_received t)
            (parseNumber (getField r (key Received)));
     total_pending_demand :=
       plus (total_pending_demand t)
            (parseNumber (getField r (key PendingDemand)));
     total_receivables :=
       plus (total_receivables t)
            (parseNumber (getField r (key Receivables))) |}.

Record RevenueBody : Type := mkRevenue {
  revenue_period : value;
  total_records : nat;
  totals : Totals
}.

(** [Object.keys(o)]; a TypeError on undefined. *)
Definition Object_keys (o : option Row) : result (list jsstring) :=
  match o with
  | Some row => Ok (map fst (Object_entries row))
  | None => Throw TypeError
  end.

(** [index.js] reads the [COLS] headers; the revision answers an empty
    sheet at once and otherwise resolves the headers on the keys of the
    first row the period filter kept. *)
Definition revenueSummary (f : SourceFile) (H : DateHost) (now : Z)
    (period : value) : Route RevenueBody :=
  let shown := orElse period (VString (str "all")) in
  AwaitRows (fun loaded =>
    Respond (orFail
      (data <- loaded ;;
       match f with
       | index_js =>
           data <- whenPeriod f H now period data ;;
           Ok {| revenue_period := shown;
                 total_records := List.length data;
                 totals := fold_left (addRow fieldDefault) data zeroTotals |}
       | part_000 =>
           match data with
           | [] => Ok {| revenue_period := shown;
                         total_records := O;
                         totals := zeroTotals |}
           | _ :: _ =>
               data <- whenPeriod f H now period data ;;
               keys <- Object_keys (nth_error data 0) ;;
               let key x := toString (resolveKey keys x) in
               Ok {| revenue_period := shown;
                     total_records := List.length data;
                     totals := fold_left (addRow key) data zeroTotals |}
           end
       end)
      "Failed to get revenue summary")).

(** ** GET /loan-status *)

Record LoanBody : Type := mkLoan {
  loan_total_records : nat;
  financed_by : list Group;
  loan_status : list Group
}.

Definition loanStatus : Route LoanBody :=
  AwaitRows (fun loaded =>
    Respond (orFail
      (data <- loaded ;;
       financedBy <- groupCount data COLS.HOME_LOAN_FINANCED_BY ;;
       status <- groupCount data COLS.LOAN_STATUS ;;
       Ok {| loan_total_records := List.length data;
             financed_by := financedBy;
             loan_status := status |})
      "Failed to get loan status")).

(** ** GET /demand/details *)

Record DemandEntry : Type := mkEntry {
  entry_cluster : value;
  entry_unit_no : value;
  entry_customer_name : value;
  entry_booking_date : value;
  entry_sale_agreement_status : value;
  entry_demand_percent : value;
  entry_demand_value : value;
  entry_pending_demand : value;
  entry_receivables : value
}.

Record DemandBody : Type := mkDemand {
  demand_count : nat;
  demand_entries : list DemandEntry
}.

Definition demandEntry (r : Row) : DemandEntry :=
  {| entry_cluster := getField r COLS.CLUSTER;
     entry_unit_no := getField r COLS.UNIT_NO;
     entry_customer_name := getField r COLS.CUSTOMER_NAME;
     entry_booking_date := getField r COLS.BOOKING_DATE;
     entry_sale_agreement_status := getField r COLS.SALE_AGREEMENT_STATUS;
     entry_demand_percent := getField r COLS.DEMAND_PERCENT;
     entry_demand_value := getField r COLS.DEMAND_VALUE;
     entry_pending_demand := getField r COLS.PENDING_DEMAND;
     entry_receivables := getField r COLS.RECEIVABLES |}.

Definition demandDetails : Route DemandBody :=
  AwaitRows (fun loaded =>
    Respond (orFail
      (data <- loaded ;;
       let rows := map demandEntry data in
       Ok {| demand_count := List.length rows; demand_entries := rows |})
      "Failed to get demand details")).

(** * Vocabulary of the statements *)

(** The value [parseDate] returns, read off its branches. *)
Definition parsedDate (f : SourceFile) (H : DateHost) (v : value)
  : option Date :=
  if truthy v then
    match trim (toString v) with
    | [] => None
    | clean =>
        match Date_parse H clean with
        | Some t => Some {| getTime := Some t |}
        | None =>
            match splitOn isDateSeparator clean with
            | a :: b :: c :: _ =>
                fromComponents H (dateComponents f (trim a) (trim b) (trim c))
            | _ => None
            end
        end
    end
  else None.

(** A component that is missing, not a number, or zero. *)
Definition absentOrZero (n : option Z) : Prop := n = None \/ n = Some 0.

(** Whether the filter callback keeps a row. *)
Definition keeps (f : SourceFile) (H : DateHost) (now : Z) (period : value)
    (dateColumn : jsstring) (row : Row) : bool :=
  match parsedDate f H (getField row dateColumn) with
  | Some d => inPeriod H now period d
  | None => false
  end.


(** [Subsequence kept data]: [kept] is [data] with some elements dropped. *)
Inductive Subsequence {A : Type} : list A -> list A -> Prop :=
| Subsequence_nil : Subsequence [] []
| Subsequence_keep x kept data :
    Subsequence kept data -> Subsequence (x :: kept) (x :: data)
| Subsequence_drop x kept data :
    Subsequence kept data -> Subsequence kept (x :: data).

(** The answer of GET /customer to a request without parameters. *)
Definition missingParameter : Response :=
  {| status := 400; body := ErrorBody (str "Provide mobile or unit query") |}.

(** What [parseDate] returns once it has rebuilt the text [iso]. *)
Definition reparsed (H : DateHost) (iso : jsstring) : option Date :=
  match Date_parse H iso with
  | Some t => Some {| getTime := Some t |}
  | None => None
  end.

(** A sheet of one row, booked on 5 March 2024 and marked UNSOLD. *)
Definition unsoldRow (f : SourceFile) : Row :=
  [ (COLS.BOOKING_DATE, str "2024-03-05");
    (COLS.SOLD_STATUS f, str "UNSOLD");
    (COLS.CLUSTER, str "A") ].

(** A row with only its Cluster cell filled. *)
Definition cluster (name : string) : Row := [(COLS.CLUSTER, str name)].

(** A name that [Object.prototype] does not hold. *)
Definition plainName (k : jsstring) : Prop := assoc k objectPrototype = None.

(** The label of a row when [key] is a plain name. *)
Definition labelOf (row : Row) (key : jsstring) : jsstring :=
  match assoc key row with
  | Some cell =>
      match trim cell with
      | [] => str "Unknown"
      | t => t
      end
  | None => str "Unknown"
  end.

(** Number of entries of [ls] equal to [l]. *)
Definition occurrences (l : jsstring) (ls : list jsstring) : Z :=
  Z.of_nat (List.length (filter (jsstring_eqb l) ls)).

(** A count as an integer; a text counts for nothing. *)
Definition countZ (c : countval) : Z :=
  match c with
  | CNum n => n
  | CStr _ => 0
  end.

Definition sumCounts (cs : list countval) : Z :=
  fold_right Z.add 0 (map countZ cs).

(** One turn of the [forEach] loop. *)
Definition step (counts : Counts) (val : jsstring) : Counts :=
  assign counts val (increment counts val).

(** The loop invariant: after the labels [seen], [counts] has one own
    property per label seen, holding the number of its occurrences, and
    the counts add up to the number of labels seen. *)
Definition Tallied (seen : list jsstring) (counts : Counts) : Prop :=
  NoDup (map fst counts)
  /\ (forall l, assoc l counts
                = if occurrences l seen =? 0 then None
                  else Some (CNum (occurrences l seen)))
  /\ sumCounts (map snd counts) = Z.of_nat (List.length seen).

(** An entry whose count is a number. *)
Definition numeric (e : jsstring * countval) : Prop :=
  exists n, snd e = CNum n.

(** [a] is listed before [b]: its count is not the smaller one. *)
Definition descending (a b : jsstring * countval) : Prop :=
  countZ (snd b) <= countZ (snd a).

(** A row with only its Booking Date cell filled. *)
Definition booked (date : string) : Row := [(COLS.BOOKING_DATE, str date)].

(** Noon of 5 March 2024, UTC. *)
Definition noon5March2024 : Z := 1709640000000.

(** Whether the first and the last of the three leading components of a
    text both pass their year test. *)
Definition bothYearTests (clean : jsstring) : bool :=
  match splitOn isDateSeparator clean with
  | a :: _ :: c :: _ => yearFirstTest (trim a) && yearLastTest (trim c)
  | _ => false
  end.

(** A sheet of two columns and two data rows, the second one short. *)
Definition sampleValues : option (list (list jsstring)) :=
  Some [ [str " Cluster "; str "Booking Date"];
         [str " A"; str "2024-03-05 "];
         [str "B"] ].

(** [r[column] || ""] as text, for a column that is a plain name. *)
Definition cellText (r : Row) (column : jsstring) : jsstring :=
  match getField r column with
  | VString s => s
  | _ => []
  end.

(** A query parameter that is absent or a single text, not an array or
    an object. *)
Definition isText (v : value) : bool :=
  match v with
  | VObject _ => false
  | _ => true
  end.

(** The rows GET /bookings lists: each filter applies when its parameter
    is given. *)
Definition bookingWanted (f : SourceFile) (H : DateHost) (now : Z)
    (cluster status period : value) (r : Row) : bool :=
  (negb (truthy period) || keeps f H now period COLS.BOOKING_DATE r)
  && (negb (truthy cluster)
      || jsstring_eqb (toLowerCase (cellText r COLS.CLUSTER))
                      (toLowerCase (toString cluster)))
  && (negb (truthy status)
      || includes (toLowerCase (cellText r (COLS.SOLD_STATUS f)))
                  (toLowerCase (toString status))).

(** The rows GET /customer lists. *)
Definition customerWanted (mobile unit : value) (r : Row) : bool :=
  (negb (truthy mobile)
   || includes (keepOnly isDigit (cellText r COLS.MOBILE))
               (keepOnly isDigit (toString mobile)))
  && (negb (truthy unit)
      || jsstring_eqb (toLowerCase (cellText r COLS.UNIT_NO))
                      (toLowerCase (toString unit))).

(** The answer 200 of GET /bookings with the rows [l]. *)
Definition listed (l : list Row) : Reply BookingsBody * nat :=
  ({| code := 200;
      answer := Json {| bookings_count := List.length l;
                        bookings_rows := l |} |}, 1%nat).

(** The answer 200 of GET /customer with the rows [l]. *)
Definition found (l : list Row) : Response * nat :=
  ({| status := 200; body := CustomersBody (List.length l) l |}, 1%nat).

(** The answer 500 of a route, after one read. *)
Definition failed {B} (message : string) : Reply B * nat :=
  ({| code := 500; answer := Failed (str message) |}, 1%nat).

(** The configured header of each revenue field is among the keys, and
    no other key has its normal form. *)
Definition configuredHeaders (keys : list jsstring) : Prop :=
  forall x : RevenueField,
    In (fieldDefault x) keys
    /\ forall k, In k keys -> norm k = norm (fieldDefault x) ->
                 k = fieldDefault x.

(** A row with the five revenue headers and one amount. *)
Definition revenueRow (amount : string) : Row :=
  [ (COLS.SALE_PRICE, str amount);
    (COLS.GROSS_SALE_VALUE_NO_GST, str "");
    (COLS.GROSS_AMOUNT_RECEIVED, str "");
    (COLS.PENDING_DEMAND, str "");
    (COLS.RECEIVABLES, str "") ].

(** * Properties *)

(** ** Strings and results *)

Lemma jsstring_eqb_eq (s t : jsstring) : jsstring_eqb s t = true <-> s = t.
Proof.
  revert t; induction s as [|c s IH]; intros [|d t]; simpl;
    try (split; [discriminate | discriminate]); [tauto|].
  rewrite andb_true_iff, N.eqb_eq, IH.
  split; [intros [-> ->]; reflexivity | intros E; injection E; auto].
Qed.

Lemma jsstring_eqb_refl (s : jsstring) : jsstring_eqb s s = true.
Proof. apply jsstring_eqb_eq; reflexivity. Qed.

Lemma jsstring_eqb_neq (s t : jsstring) : jsstring_eqb s t = false <-> s <> t.
Proof.
  rewrite <- jsstring_eqb_eq.
  destruct (jsstring_eqb s t); split; congruence.
Qed.


Lemma filterR_Ok {A} (callback : A -> result bool) (p : A -> bool)
    (l : list A) :
  (forall x, callback x = Ok (p x)) -> filterR callback l = Ok (filter p l).
Proof.
  intros E; induction l as [|x l IH]; simpl; [reflexivity|].
  rewrite E, IH; simpl; reflexivity.
Qed.

(** ** parseDate never throws *)

Lemma parseDate_Ok (f : SourceFile) (H : DateHost) (v : value) :
  parseDate f H v = Ok (parsedDate f H v).
Proof.
  unfold parseDate, parsedDate.
  destruct (truthy v); simpl; [|reflexivity].
  destruct (trim (toString v)) as [|u clean]; [reflexivity|].
  unfold isInvalid; simpl.
  destruct (Date_parse H (u :: clean)); simpl; [reflexivity|].
  destruct (splitOn isDateSeparator (u :: clean)) as [|a [|b [|c rest]]];
    reflexivity.
Qed.

Lemma fromComponents_valid (H : DateHost) (x : DMY) (d : Date) :
  fromComponents H x = Some d -> exists t, d = {| getTime := Some t |}.
Proof.
  unfold fromComponents, isInvalid; simpl.
  destruct (falsyInt (day x) || falsyInt (month x) || falsyInt (year x));
    [discriminate|].
  destruct (Date_parse H (isoText x)) as [t|]; [|discriminate].
  intros E; injection E as <-; eauto.
Qed.

Lemma parsedDate_valid (f : SourceFile) (H : DateHost) (v : value) (d : Date) :
  parsedDate f H v = Some d -> exists t, d = {| getTime := Some t |}.
Proof.
  unfold parsedDate.
  destruct (truthy v); [|discriminate].
  destruct (trim (toString v)) as [|u clean]; [discriminate|].
  destruct (Date_parse H (u :: clean)) as [t|].
  - intros E; injection E as <-; eauto.
  - destruct (splitOn isDateSeparator (u :: clean)) as [|a [|b [|c rest]]];
      try discriminate.
    apply fromComponents_valid.
Qed.

Lemma falsyInt_iff (n : option Z) : falsyInt n = true <-> absentOrZero n.
Proof.
  unfold absentOrZero; destruct n as [z|]; simpl.
  - rewrite Z.eqb_eq; split; [intros ->; auto | intros [E|E]; congruence].
  - split; auto.
Qed.

(** C5.  [parseDate] returns on every input and host, without throwing:
    the result is null or a date whose time value is a number.  It is
    null when the input is falsy or blank; when the direct parse fails and
    the text has fewer than three components; when a day, month or year
    component is missing, not a number or zero; and when the rebuilt ISO
    text does not parse. *)
Theorem parseDate_total (f : SourceFile) (H : DateHost) (v : value) :
  exists r : option Date,
    parseDate f H v = Ok r
    /\ (r = None \/ exists t : Z, r = Some {| getTime := Some t |})
    /\ (truthy v = false -> r = None)
    /\ (trim (toString v) = [] -> r = None)
    /\ (Date_parse H (trim (toString v)) = None ->
        (List.length (splitOn isDateSeparator (trim (toString v))) < 3)%nat ->
        r = None)
    /\ (forall a b c rest,
          Date_parse H (trim (toString v)) = None ->
          splitOn isDateSeparator (trim (toString v)) = a :: b :: c :: rest ->
          let x := dateComponents f (trim a) (trim b) (trim c) in
          absentOrZero (day x) \/ absentOrZero (month x)
          \/ absentOrZero (year x) \/ Date_parse H (isoText x) = None ->
          r = None).
Proof.
  exists (parsedDate f H v).
  split; [apply parseDate_Ok|].
  split.
  { destruct (parsedDate f H v) as [d|] eqn:E; [right | left; reflexivity].
    destruct (parsedDate_valid _ _ _ _ E) as [t ->]; eauto. }
  unfold parsedDate.
  split; [intros ->; reflexivity|].
  split; [intros ->; destruct (truthy v); reflexivity|].
  split.
  - intros D L.
    destruct (truthy v); [|reflexivity].
    destruct (trim (toString v)) as [|u clean]; [reflexivity|].
    rewrite D.
    destruct (splitOn isDateSeparator (u :: clean)) as [|a [|b [|c rest]]];
      try reflexivity.
    simpl in L; lia.
  - intros a b c rest D S Bad.
    destruct (truthy v); [|reflexivity].
    destruct (trim (toString v)) as [|u clean]; [reflexivity|].
    rewrite D, S.
    set (x := dateComponents f (trim a) (trim b) (trim c)) in *.
    unfold fromComponents, isInvalid; simpl.
    destruct Bad as [B|[B|[B|B]]];
      try (apply falsyInt_iff in B; rewrite B, ?orb_true_r; reflexivity).
    rewrite B.
    destruct (falsyInt (day x) || falsyInt (month x) || falsyInt (year x));
      reflexivity.
Qed.

(** ** filterByPeriod *)

Lemma filterByPeriod_filter (f : SourceFile) (H : DateHost) (now : Z)
    (data : list Row) (period : value) (dateColumn : jsstring) :
  filterByPeriod f H now data period dateColumn
  = Ok (filter (keeps f H now period dateColumn) data).
Proof.
  unfold filterByPeriod.
  apply filterR_Ok.
  intros row; unfold keeps.
  rewrite parseDate_Ok; simpl.
  destruct (parsedDate f H (getField row dateColumn)); reflexivity.
Qed.



Lemma filter_Subsequence {A} (p : A -> bool) (l : list A) :
  Subsequence (filter p l) l.
Proof.
  induction l as [|x l IH]; simpl; [constructor|].
  destruct (p x); constructor; exact IH.
Qed.

(** C8.  The output of [filterByPeriod] is a subsequence of its input:
    the kept rows in their input order, none repeated, none moved. *)
Theorem filterByPeriod_subsequence (f : SourceFile) (H : DateHost) (now : Z)
    (data : list Row) (period : value) (dateColumn : jsstring) :
  exists kept : list Row,
    filterByPeriod f H now data period dateColumn = Ok kept
    /\ Subsequence kept data.
Proof.
  eexists; split; [apply filterByPeriod_filter | apply filter_Subsequence].
Qed.

(** ** parseNumber *)

Lemma keepOnly_units (keep : N -> bool) (s : jsstring) (c : N) :
  In c (keepOnly keep s) <-> In c s /\ keep c = true.
Proof. apply filter_In. Qed.






Lemma digit_bounds (c : N) : isDigit c = true -> (48 <= c <= 57)%N.
Proof.
  unfold isDigit; intros D; apply andb_true_iff in D; destruct D as [L U].
  apply N.leb_le in L; apply N.leb_le in U; lia.
Qed.





(** ** GET /customer *)

(** C9.  With neither [mobile] nor [unit] the handler answers 400 with an
    error body at once: it is a [Send], so no read of the sheet precedes
    it, and running it against any sheet counts zero reads. *)
Theorem customer_rejects_before_load (mobile unit : value) :
  truthy mobile = false -> truthy unit = false ->
  customer mobile unit = Send missingParameter
  /\ forall sheet : result (list Row),
       run (customer mobile unit) sheet = (missingParameter, O).
Proof.
  intros M U; unfold customer; rewrite M, U; simpl.
  split; [reflexivity | intros sheet; reflexivity].
Qed.

Lemma customer_rejects_before_load_witness :
  customer VUndefined (VString []) = Send missingParameter
  /\ forall sheet : result (list Row),
       run (customer VUndefined (VString [])) sheet = (missingParameter, O).
Proof.
  apply (customer_rejects_before_load VUndefined (VString []));
    reflexivity.
Defined.

(** With a parameter given, the handler reads the sheet exactly once. *)
Lemma customer_loads_once (mobile unit : value) (sheet : result (list Row)) :
  truthy mobile || truthy unit = true ->
  snd (run (customer mobile unit) sheet) = 1%nat.
Proof.
  intros T; unfold customer.
  destruct (truthy mobile), (truthy unit); simpl in *;
    try discriminate; reflexivity.
Qed.

(** ** Header resolution *)

Lemma find_VString (p : jsstring -> bool) (keys : list jsstring) :
  find p keys = match List.find p keys with
                | Some k => VString k
                | None => VUndefined
                end.
Proof. reflexivity. Qed.

Lemma includes_empty_string (t : jsstring) : includes [] t = true -> t = [].
Proof. destruct t; simpl; [reflexivity | discriminate]. Qed.

(** A header whose normal form holds a non-empty target is itself
    non-empty, hence truthy. *)
Lemma matching_key_truthy (target k : jsstring) :
  target <> [] -> includes (norm k) target = true -> truthy (VString k) = true.
Proof.
  intros T I; destruct k; [|reflexivity].
  apply includes_empty_string in I; contradiction.
Qed.

Lemma jsstring_eqb_includes (s t : jsstring) :
  jsstring_eqb s t = true -> includes s t = true.
Proof.
  intros E; apply jsstring_eqb_eq in E; subst t.
  assert (P : forall u : jsstring, startsWith u u = true).
  { induction u; simpl; [reflexivity | rewrite N.eqb_refl; assumption]. }
  destruct s; simpl; [reflexivity | rewrite N.eqb_refl, P; reflexivity].
Qed.

(** [findKey] for a label whose normal form is not empty: the first exact
    match, else the first header containing the label, else undefined. *)
Lemma findKey_order (keys : list jsstring) (label : jsstring) :
  norm label <> [] ->
  findKey keys label =
  match List.find (fun k => jsstring_eqb (norm k) (norm label)) keys with
  | Some k => VString k
  | None => find (fun k => includes (norm k) (norm label)) keys
  end.
Proof.
  intros T; unfold findKey, orElse; rewrite find_VString.
  destruct (List.find _ keys) as [k|] eqn:F; [|reflexivity].
  apply find_some in F; destruct F as [_ E].
  rewrite (matching_key_truthy (norm label) k T); [reflexivity|].
  apply jsstring_eqb_includes; exact E.
Qed.


(** ** The order of the date heuristics *)

Lemma parseDate_fallback (f : SourceFile) (H : DateHost)
    (s a b c : jsstring) (rest : list jsstring) :
  Date_parse H (trim s) = None ->
  splitOn isDateSeparator (trim s) = a :: b :: c :: rest ->
  parseDate f H (VString s)
  = Ok (fromComponents H (dateComponents f (trim a) (trim b) (trim c))).
Proof.
  intros D S; rewrite parseDate_Ok; unfold parsedDate; simpl toString.
  destruct s as [|u s]; [discriminate S|].
  simpl truthy; cbv iota.
  destruct (trim (u :: s)) as [|u' clean]; [discriminate S|].
  rewrite D, S; reflexivity.
Qed.

(** The revision tests the first component first: a four-unit first
    component above 1900 gives year-month-day; failing that, a four-unit
    last component between 1900 and 3000 gives day and month by the
    above-12 rule. *)
Lemma part_000_heuristic_order (H : DateHost)
    (s a b c : jsstring) (rest : list jsstring) :
  Date_parse H (trim s) = None ->
  splitOn isDateSeparator (trim s) = a :: b :: c :: rest ->
  (yearFirstTest (trim a) = true ->
   parseDate part_000 H (VString s)
   = Ok (fromComponents H
           {| year := parseInt10 (trim a); month := parseInt10 (trim b);
              day := parseInt10 (trim c) |}))
  /\ (yearFirstTest (trim a) = false -> yearLastTest (trim c) = true ->
      parseDate part_000 H (VString s)
      = Ok (fromComponents H
              (if intGt (parseInt10 (trim a)) 12
               then {| day := parseInt10 (trim a);
                       month := parseInt10 (trim b);
                       year := parseInt10 (trim c) |}
               else {| month := parseInt10 (trim a);
                       day := parseInt10 (trim b);
                       year := parseInt10 (trim c) |}))).
Proof.
  intros D S; rewrite (parseDate_fallback _ _ _ _ _ _ _ D S); simpl.
  split; [intros -> | intros -> ->]; reflexivity.
Qed.

(** [index.js] tests the last component first, and the first component
    only when that test fails. *)
Lemma index_js_heuristic_order (H : DateHost)
    (s a b c : jsstring) (rest : list jsstring) :
  Date_parse H (trim s) = None ->
  splitOn isDateSeparator (trim s) = a :: b :: c :: rest ->
  (yearLastTest (trim c) = true ->
   parseDate index_js H (VString s)
   = Ok (fromComponents H
           (if intGt (parseInt10 (trim a)) 12
            then {| day := parseInt10 (trim a);
                    month := parseInt10 (trim b);
                    year := parseInt10 (trim c) |}
            else {| month := parseInt10 (trim a);
                    day := parseInt10 (trim b);
                    year := parseInt10 (trim c) |})))
  /\ (yearLastTest (trim c) = false -> yearFirstTest (trim a) = true ->
      parseDate index_js H (VString s)
      = Ok (fromComponents H
              {| year := parseInt10 (trim a); month := parseInt10 (trim b);
                 day := parseInt10 (trim c) |})).
Proof.
  intros D S; rewrite (parseDate_fallback _ _ _ _ _ _ _ D S); simpl.
  split; [intros -> | intros -> ->]; reflexivity.
Qed.

(** C2.  On ["2024/03/2025"], whose first component is a four-digit
    number above 1900, a host that cannot parse the text directly gets
    from [index.js] the text of day 2024, month 3, year 2025 to parse:
    the last component was tested first.  The revision rebuilds the
    year-month-day reading, year 2024. *)
Theorem index_js_tests_last_component_first (H : DateHost) :
  Date_parse H (str "2024/03/2025") = None ->
  splitOn isDateSeparator (trim (str "2024/03/2025"))
  = [str "2024"; str "03"; str "2025"]
  /\ yearFirstTest (str "2024") = true
  /\ parseDate index_js H (VString (str "2024/03/2025"))
     = Ok (reparsed H (str "2025-03-2024T00:00:00"))
  /\ parseDate part_000 H (VString (str "2024/03/2025"))
     = Ok (reparsed H (str "2024-03-2025T00:00:00")).
Proof.
  intros D.
  assert (S : splitOn isDateSeparator (trim (str "2024/03/2025"))
              = [str "2024"; str "03"; str "2025"]) by reflexivity.
  split; [exact S|].
  split; [reflexivity|].
  assert (T : trim (str "2024/03/2025") = str "2024/03/2025") by reflexivity.
  split.
  - rewrite (parseDate_fallback index_js H _ _ _ _ _
               (eq_trans (f_equal _ T) D) S).
    unfold fromComponents, reparsed, isInvalid; simpl getTime.
    change (isoText _) with (str "2025-03-2024T00:00:00").
    destruct (Date_parse H (str "2025-03-2024T00:00:00")); reflexivity.
  - rewrite (parseDate_fallback part_000 H _ _ _ _ _
               (eq_trans (f_equal _ T) D) S).
    unfold fromComponents, reparsed, isInvalid; simpl getTime.
    change (isoText _) with (str "2024-03-2025T00:00:00").
    destruct (Date_parse H (str "2024-03-2025T00:00:00")); reflexivity.
Qed.

Lemma index_js_tests_last_component_first_witness :
  splitOn isDateSeparator (trim (str "2024/03/2025"))
  = [str "2024"; str "03"; str "2025"]
  /\ yearFirstTest (str "2024") = true
  /\ parseDate index_js SampleHost.host (VString (str "2024/03/2025"))
     = Ok (reparsed SampleHost.host (str "2025-03-2024T00:00:00"))
  /\ parseDate part_000 SampleHost.host (VString (str "2024/03/2025"))
     = Ok (reparsed SampleHost.host (str "2024-03-2025T00:00:00")).
Proof.
  apply (index_js_tests_last_component_first SampleHost.host).
  reflexivity.
Defined.

(** ** GET /bookings/summary *)

Lemma startsWith_suffix (s p q : jsstring) :
  startsWith s (p ++ q) = true -> includes s q = true.
Proof.
  revert s; induction p as [|d p IH]; intros s E.
  - destruct s; simpl in *; rewrite E; reflexivity.
  - destruct s as [|c s]; simpl in E; [discriminate|].
    apply andb_true_iff in E; destruct E as [_ E].
    simpl; rewrite (IH s E); apply orb_true_r.
Qed.

Lemma includes_suffix (s p q : jsstring) :
  includes s (p ++ q) = true -> includes s q = true.
Proof.
  induction s as [|c s IH]; intros E.
  - simpl in E; rewrite orb_false_r in E.
    apply (startsWith_suffix [] p q E).
  - simpl in E; apply orb_true_iff in E; destruct E as [E|E].
    + apply (startsWith_suffix (c :: s) p q E).
    + simpl; rewrite (IH E); apply orb_true_r.
Qed.

(** Every row the [unsold] filter keeps, the [sold] filter keeps too. *)
Lemma unsold_row_counts_as_sold (column : jsstring) (r : Row) :
  statusIncludes column (str "UNSOLD") r = Ok true ->
  statusIncludes column (str "SOLD") r = Ok true.
Proof.
  unfold statusIncludes, onString.
  destruct (orElse (getField r column) (VString [])); try discriminate.
  intros E; injection E as E.
  rewrite (includes_suffix (toUpperCase s) (str "UN") (str "SOLD") E).
  reflexivity.
Qed.

(** C1.  Asked at 5 March 2024 00:00 UTC for the default period, each
    file reports the one UNSOLD row of the sheet under [sold] and again
    under [unsold]: 1 + 1 against [total_bookings] 1. *)
Theorem summary_counts_unsold_row_twice (f : SourceFile) :
  run (bookingsSummary f SampleHost.host 1709596800000 VUndefined)
      (Ok [unsoldRow f])
  = ({| status := 200;
        body := SummaryBody (VString (str "this_month")) 1 1 1
                  [{| label := str "A"; count := CNum 1 |}] |},
     1%nat).
Proof. destruct f; vm_compute; reflexivity. Qed.

(** ** groupCount on names inherited from Object.prototype *)

(** C6.  The documented example tallies as stated, but a row whose
    field reads [__proto__] is left out of the tally: of two rows only
    the group of ["A"] is emitted. *)
Theorem groupCount_leaves_out_proto_rows :
  groupCount [cluster "A"; cluster "A"; cluster "B"; cluster ""] COLS.CLUSTER
  = Ok [ {| label := str "A"; count := CNum 2 |};
         {| label := str "B"; count := CNum 1 |};
         {| label := str "Unknown"; count := CNum 1 |} ]
  /\ groupCount [cluster "__proto__"; cluster "A"] COLS.CLUSTER
     = Ok [ {| label := str "A"; count := CNum 1 |} ].
Proof. split; vm_compute; reflexivity. Qed.

(** C10.  One row reading [__proto__] yields no group at all, so the
    counts sum to 0 for 1 row; one row reading [constructor] yields a
    group whose count is a text, not a number. *)
Theorem groupCount_miscounts_inherited_names :
  groupCount [cluster "__proto__"] COLS.CLUSTER = Ok []
  /\ groupCount [cluster "constructor"] COLS.CLUSTER
     = Ok [ {| label := str "constructor";
               count := CStr (str "function Object() { [native code] }1") |} ].
Proof. split; vm_compute; reflexivity. Qed.

(** ** groupCount on plain names

    Outside the names of [Object.prototype] the tally is exact: one group
    per label, each counting the rows of its label, in descending order. *)

Section AssociationLists.
Context {B : Type}.
Implicit Types (l : list (jsstring * B)) (k : jsstring) (b : B).

Lemma assoc_In k l b : assoc k l = Some b -> In (k, b) l.
Proof.
  induction l as [|[k' b'] l IH]; simpl; [discriminate|].
  destruct (jsstring_eqb k' k) eqn:E.
  - apply jsstring_eqb_eq in E; subst k'.
    intros X; injection X as ->; left; reflexivity.
  - intros X; right; exact (IH X).
Qed.

Lemma assoc_None k l : assoc k l = None <-> ~ In k (map fst l).
Proof.
  induction l as [|[k' b'] l IH]; simpl; [tauto|].
  destruct (jsstring_eqb k' k) eqn:E.
  - apply jsstring_eqb_eq in E; subst k'.
    split; [discriminate | intros X; exfalso; apply X; left; reflexivity].
  - apply jsstring_eqb_neq in E; rewrite IH; tauto.
Qed.

Lemma assoc_NoDup k l b :
  NoDup (map fst l) -> In (k, b) l -> assoc k l = Some b.
Proof.
  induction l as [|[k' b'] l IH]; simpl; [tauto|].
  intros N I; inversion N as [|? ? Fresh N']; subst.
  destruct I as [I|I].
  - injection I as -> ->; rewrite jsstring_eqb_refl; reflexivity.
  - destruct (jsstring_eqb k' k) eqn:E; [|exact (IH N' I)].
    apply jsstring_eqb_eq in E; subst k'.
    exfalso; apply Fresh; exact (in_map fst _ _ I).
Qed.

Lemma assoc_app_single k k' l b :
  assoc k' (l ++ [(k, b)])
  = match assoc k' l with
    | Some b' => Some b'
    | None => if jsstring_eqb k k' then Some b else None
    end.
Proof.
  induction l as [|[k0 b0] l IH]; simpl; [reflexivity|].
  destruct (jsstring_eqb k0 k'); [reflexivity | exact IH].
Qed.
End AssociationLists.

Lemma update_keys (val : jsstring) (x : countval) (cs : Counts) :
  map fst (update val x cs) = map fst cs.
Proof.
  induction cs as [|[k y] cs IH]; simpl; [reflexivity|].
  destruct (jsstring_eqb k val); simpl; [reflexivity | rewrite IH; reflexivity].
Qed.

Lemma assoc_update_same (val : jsstring) (x y : countval) (cs : Counts) :
  assoc val cs = Some y -> assoc val (update val x cs) = Some x.
Proof.
  induction cs as [|[k z] cs IH]; simpl; [discriminate|].
  destruct (jsstring_eqb k val) eqn:E; simpl; rewrite E;
    [reflexivity | exact IH].
Qed.

Lemma assoc_update_other (val k : jsstring) (x : countval) (cs : Counts) :
  k <> val -> assoc k (update val x cs) = assoc k cs.
Proof.
  intros D; induction cs as [|[k' z] cs IH]; simpl; [reflexivity|].
  destruct (jsstring_eqb k' val) eqn:E; simpl.
  - apply jsstring_eqb_eq in E; subst k'.
    apply not_eq_sym, jsstring_eqb_neq in D; rewrite D; reflexivity.
  - rewrite IH; reflexivity.
Qed.

Lemma sumCounts_update (val : jsstring) (x y : countval) (cs : Counts) :
  assoc val cs = Some y ->
  sumCounts (map snd (update val x cs))
  = sumCounts (map snd cs) - countZ y + countZ x.
Proof.
  unfold sumCounts.
  induction cs as [|[k z] cs IH]; simpl; [discriminate|].
  destruct (jsstring_eqb k val); simpl.
  - intros E; injection E as ->; lia.
  - intros E; rewrite (IH E); lia.
Qed.

Lemma sumCounts_app (cs ds : list countval) :
  sumCounts (cs ++ ds) = sumCounts cs + sumCounts ds.
Proof.
  unfold sumCounts; induction cs as [|c cs IH]; simpl; [reflexivity|].
  rewrite IH; lia.
Qed.

Lemma occurrences_snoc (l l' : jsstring) (seen : list jsstring) :
  occurrences l (seen ++ [l'])
  = occurrences l seen + (if jsstring_eqb l l' then 1 else 0).
Proof.
  unfold occurrences; rewrite filter_app, length_app; simpl.
  destruct (jsstring_eqb l l'); simpl; lia.
Qed.

Lemma occurrences_nonneg (l : jsstring) (ls : list jsstring) :
  0 <= occurrences l ls.
Proof. unfold occurrences; lia. Qed.

Lemma occurrences_In (l : jsstring) (ls : list jsstring) :
  1 <= occurrences l ls <-> In l ls.
Proof.
  unfold occurrences; induction ls as [|x ls IH]; simpl; [lia|].
  destruct (jsstring_eqb l x) eqn:E; simpl.
  - apply jsstring_eqb_eq in E; subst x; split; [auto | lia].
  - apply jsstring_eqb_neq in E; rewrite IH.
    split; [auto | intros [X|X]; [congruence | exact X]].
Qed.

Lemma Tallied_step (seen : list jsstring) (counts : Counts) (l : jsstring) :
  plainName l -> Tallied seen counts -> Tallied (seen ++ [l]) (step counts l).
Proof.
  intros P (N & A & S).
  assert (NP : jsstring_eqb l (str "__proto__") = false).
  { apply jsstring_eqb_neq; intros ->; discriminate P. }
  unfold step, assign, increment.
  pose proof (A l) as Al.
  pose proof (occurrences_nonneg l seen) as O.
  destruct (occurrences l seen =? 0) eqn:Z0; rewrite Al.
  - (* a label not seen before *)
    apply Z.eqb_eq in Z0.
    rewrite P, NP.
    split; [|split].
    + rewrite map_app; simpl.
      apply NoDup_app; [exact N | repeat constructor; simpl; tauto |].
      intros k I [<-|[]]; apply assoc_None in Al; exact (Al I).
    + intros k; rewrite assoc_app_single, (A k), occurrences_snoc.
      pose proof (occurrences_nonneg k seen).
      destruct (jsstring_eqb l k) eqn:E.
      * apply jsstring_eqb_eq in E; subst k.
        rewrite jsstring_eqb_refl, Z0; reflexivity.
      * assert (E' : jsstring_eqb k l = false).
        { apply jsstring_eqb_neq; apply jsstring_eqb_neq in E; congruence. }
        rewrite E', Z.add_0_r.
        destruct (occurrences k seen =? 0); reflexivity.
    + rewrite map_app, sumCounts_app, S, length_app; simpl.
      unfold sumCounts; simpl; lia.
  - (* a label seen before *)
    apply Z.eqb_neq in Z0.
    split; [|split].
    + rewrite update_keys; exact N.
    + intros k; rewrite occurrences_snoc.
      destruct (jsstring_eqb k l) eqn:E.
      * apply jsstring_eqb_eq in E; subst k.
        rewrite (assoc_update_same _ _ _ _ Al).
        destruct (occurrences l seen + 1 =? 0) eqn:Z1;
          [apply Z.eqb_eq in Z1; lia | reflexivity].
      * apply jsstring_eqb_neq in E.
        rewrite (assoc_update_other _ _ _ _ E), (A k), Z.add_0_r.
        reflexivity.
    + rewrite (sumCounts_update _ _ _ _ Al), S, length_app; simpl; lia.
Qed.

Lemma Tallied_fold (ls seen : list jsstring) (counts : Counts) :
  Forall plainName ls -> Tallied seen counts ->
  Tallied (seen ++ ls) (fold_left step ls counts).
Proof.
  revert seen counts; induction ls as [|l ls IH]; intros seen counts F T.
  - rewrite app_nil_r; exact T.
  - inversion F as [|? ? P F']; subst; simpl.
    replace (seen ++ l :: ls) with ((seen ++ [l]) ++ ls)
      by (rewrite <- app_assoc; reflexivity).
    apply IH; [exact F' | apply Tallied_step; assumption].
Qed.

Lemma groupLabel_plain (row : Row) (key : jsstring) :
  plainName key -> groupLabel row key = Ok (labelOf row key).
Proof.
  intros P; unfold groupLabel, getField, labelOf.
  destruct (assoc key row) as [cell|].
  - destruct cell as [|c cell]; [reflexivity|].
    unfold orElse; simpl truthy; cbv iota; simpl.
    destruct (trim (c :: cell)); reflexivity.
  - rewrite P; reflexivity.
Qed.

Lemma tally_plain (data : list Row) (key : jsstring) (counts : Counts) :
  plainName key ->
  tally data key counts
  = Ok (fold_left step (map (fun row => labelOf row key) data) counts).
Proof.
  intros P; revert counts; induction data as [|row data IH]; intros counts;
    simpl; [reflexivity|].
  rewrite (groupLabel_plain row key P); simpl; apply IH.
Qed.

(** *** Object.entries and sort rearrange, the sort into descending order *)

Lemma insertByIndex_Permutation {B} (e : jsstring * B)
    (l : list (jsstring * B)) :
  Permutation (insertByIndex e l) (e :: l).
Proof.
  induction l as [|e' l IH]; simpl; [reflexivity|].
  destruct (indexOf e' <? indexOf e); [|reflexivity].
  rewrite IH; apply perm_swap.
Qed.

Lemma filter_partition_Permutation {A} (p : A -> bool) (l : list A) :
  Permutation (filter p l ++ filter (fun x => negb (p x)) l) l.
Proof.
  induction l as [|x l IH]; simpl; [reflexivity|].
  destruct (p x); simpl.
  - apply perm_skip; exact IH.
  - rewrite <- Permutation_middle; apply perm_skip; exact IH.
Qed.

Lemma Object_entries_Permutation {B} (o : list (jsstring * B)) :
  Permutation (Object_entries o) o.
Proof.
  unfold Object_entries.
  rewrite <- (filter_partition_Permutation isIndexKey o) at 3.
  apply Permutation_app_tail.
  induction (filter isIndexKey o) as [|e l IH]; simpl; [reflexivity|].
  rewrite insertByIndex_Permutation; apply perm_skip; exact IH.
Qed.

Lemma insertSorted_Permutation {A} (comparator : A -> A -> number) (a : A)
    (l : list A) :
  Permutation (insertSorted comparator a l) (a :: l).
Proof.
  induction l as [|b l IH]; simpl; [reflexivity|].
  destruct (gtConst (comparator a b) 0); [|reflexivity].
  rewrite IH; apply perm_swap.
Qed.

Lemma sort_Permutation {A} (comparator : A -> A -> number) (l : list A) :
  Permutation (sort comparator l) l.
Proof.
  induction l as [|a l IH]; simpl; [reflexivity|].
  rewrite insertSorted_Permutation; apply perm_skip; exact IH.
Qed.

(** On numeric counts the comparator is positive exactly when the second
    count is the larger. *)
Lemma byCountDescending_numbers (k k' : jsstring) (n m : Z) :
  gtConst (byCountDescending (k, CNum n) (k', CNum m)) 0 = (n <? m).
Proof.
  unfold byCountDescending; simpl.
  destruct (n <? m) eqn:E; [apply Z.ltb_lt in E | apply Z.ltb_ge in E].
  - apply Z.ltb_lt; lia.
  - apply Z.ltb_ge; lia.
Qed.

Lemma Forall_rearranged {A} (P : A -> Prop) (l l' : list A) :
  Permutation l l' -> Forall P l -> Forall P l'.
Proof.
  intros Perm F; apply Forall_forall; intros x I.
  apply (proj1 (Forall_forall P l) F).
  apply (Permutation_in x (Permutation_sym Perm) I).
Qed.

Lemma In_rearranged {A} (l l' : list A) (x : A) :
  Permutation l l' -> (In x l <-> In x l').
Proof.
  intros Perm; split; apply Permutation_in;
    [exact Perm | symmetry; exact Perm].
Qed.

Lemma insertSorted_descending (a : jsstring * countval)
    (l : list (jsstring * countval)) :
  numeric a -> Forall numeric l ->
  StronglySorted descending l ->
  StronglySorted descending (insertSorted byCountDescending a l).
Proof.
  intros [n Na] F S; induction S as [|b l S IH Hb]; simpl.
  - repeat constructor.
  - inversion F as [|? ? [m Nb] F']; subst.
    destruct a as [k ca], b as [k' cb]; simpl in Na, Nb; subst ca cb.
    rewrite byCountDescending_numbers.
    destruct (n <? m) eqn:E; [apply Z.ltb_lt in E | apply Z.ltb_ge in E].
    + constructor; [exact (IH F')|].
      apply (Forall_rearranged _ ((k, CNum n) :: l)).
      * symmetry; apply insertSorted_Permutation.
      * constructor; [unfold descending; simpl; lia | exact Hb].
    + constructor; [constructor; assumption|].
      constructor; [unfold descending; simpl; lia|].
      eapply Forall_impl; [|exact Hb].
      intros c; unfold descending; simpl; lia.
Qed.

Lemma sort_descending (l : list (jsstring * countval)) :
  Forall numeric l -> StronglySorted descending (sort byCountDescending l).
Proof.
  induction l as [|a l IH]; intros F; simpl; [constructor|].
  inversion F as [|? ? Na F']; subst.
  apply insertSorted_descending; [exact Na | | exact (IH F')].
  apply (Forall_rearranged _ l); [symmetry; apply sort_Permutation|].
  exact F'.
Qed.

Lemma sumCounts_Permutation (cs ds : list countval) :
  Permutation cs ds -> sumCounts cs = sumCounts ds.
Proof.
  unfold sumCounts; induction 1; simpl; lia.
Qed.

(** When the field name and every label are plain names, [groupCount]
    returns one group per distinct label, each with the number of rows
    of that label (at least 1); the counts add up to the number of rows
    and the groups come in descending order of count. *)
Theorem groupCount_plain_names (data : list Row) (key : jsstring) :
  plainName key ->
  Forall (fun row => plainName (labelOf row key)) data ->
  exists groups : list Group,
    groupCount data key = Ok groups
    /\ NoDup (map label groups)
    /\ (forall l, In l (map label groups)
                  <-> In l (map (fun row => labelOf row key) data))
    /\ (forall g, In g groups ->
          count g
          = CNum (occurrences (label g) (map (fun row => labelOf row key) data))
          /\ 1 <= occurrences (label g)
                    (map (fun row => labelOf row key) data))
    /\ sumCounts (map count groups) = Z.of_nat (List.length data)
    /\ StronglySorted (fun g h => countZ (count h) <= countZ (count g)) groups.
Proof.
  intros P F.
  set (ls := map (fun row => labelOf row key) data).
  set (counts := fold_left step ls []).
  assert (T : Tallied ls counts).
  { apply (Tallied_fold ls [] []).
    - unfold ls; rewrite Forall_map; exact F.
    - split; [constructor | split; [intros l; reflexivity | reflexivity]]. }
  destruct T as (N & A & S).
  set (entries := sort byCountDescending (Object_entries counts)).
  assert (Perm : Permutation entries counts).
  { unfold entries; rewrite sort_Permutation.
    apply Object_entries_Permutation. }
  assert (Own : forall k c, In (k, c) counts ->
                  c = CNum (occurrences k ls) /\ 1 <= occurrences k ls).
  { intros k c I; pose proof (assoc_NoDup _ _ _ N I) as E.
    rewrite (A k) in E; pose proof (occurrences_nonneg k ls).
    destruct (occurrences k ls =? 0) eqn:Z0; [discriminate|].
    apply Z.eqb_neq in Z0; injection E as <-; split; [reflexivity | lia]. }
  assert (Num : Forall numeric counts).
  { apply Forall_forall; intros [k c] I.
    destruct (Own k c I) as [-> _]; eexists; reflexivity. }
  exists (map (fun e => {| label := fst e; count := snd e |}) entries).
  split.
  { unfold groupCount; rewrite (tally_plain data key [] P); reflexivity. }
  rewrite !map_map; simpl.
  split.
  { apply (Permutation_NoDup (l := map fst counts)); [|exact N].
    symmetry; apply Permutation_map; exact Perm. }
  split.
  { intros l; rewrite <- (occurrences_In l ls).
    etransitivity; [exact (In_rearranged _ _ l (Permutation_map fst Perm))|].
    pose proof (A l) as Al; pose proof (occurrences_nonneg l ls).
    destruct (occurrences l ls =? 0) eqn:Z0.
    - apply Z.eqb_eq in Z0; apply assoc_None in Al; split; [tauto | lia].
    - apply Z.eqb_neq in Z0; apply assoc_In in Al.
      split; [lia | intros _; exact (in_map fst _ _ Al)]. }
  split.
  { intros g I; apply in_map_iff in I; destruct I as ([k c] & <- & I); simpl.
    apply Own; exact (Permutation_in _ Perm I). }
  split.
  { etransitivity;
      [exact (sumCounts_Permutation _ _ (Permutation_map snd Perm))|].
    rewrite S; unfold ls; rewrite length_map; reflexivity. }
  assert (Sorted_ : StronglySorted descending entries).
  { apply sort_descending.
    apply (Forall_rearranged _ counts); [|exact Num].
    symmetry; apply Object_entries_Permutation. }
  clearbody entries; clear - Sorted_.
  induction Sorted_ as [|e l S IH He]; simpl; constructor; [exact IH|].
  rewrite Forall_map; exact He.
Qed.

(** The field names the routes pass to [groupCount] are plain names. *)
Lemma groupCount_keys_plain :
  plainName COLS.CLUSTER /\ plainName COLS.HOME_LOAN_FINANCED_BY
  /\ plainName COLS.LOAN_STATUS.
Proof. repeat split; reflexivity. Qed.

(** ** Worked examples on the sample host *)

Example parseDate_iso (f : SourceFile) :
  parseDate f SampleHost.host (VString (str "2024-03-05"))
  = Ok (Some {| getTime := Some 1709596800000 |}).
Proof. destruct f; vm_compute; reflexivity. Qed.

Example parseDate_day_first (f : SourceFile) :
  parseDate f SampleHost.host (VString (str "13/03/2024"))
  = parseDate f SampleHost.host (VString (str "2024-03-13")).
Proof. destruct f; vm_compute; reflexivity. Qed.

Example parseDate_month_first (f : SourceFile) :
  parseDate f SampleHost.host (VString (str "05/03/2024"))
  = parseDate f SampleHost.host (VString (str "2024-05-03")).
Proof. destruct f; vm_compute; reflexivity. Qed.

Example parseDate_not_a_date (f : SourceFile) :
  parseDate f SampleHost.host (VString (str "not a date")) = Ok None.
Proof. destruct f; vm_compute; reflexivity. Qed.

(** The two files part on a text whose first and last components both
    pass the year tests: [index.js] reads 5 September 2024, the revision
    reads year 9 and gives null. *)
Example parseDate_files_differ :
  parseDate index_js SampleHost.host (VString (str "9e99/05/2024"))
  = parseDate index_js SampleHost.host (VString (str "2024-09-05"))
  /\ parseDate part_000 SampleHost.host (VString (str "9e99/05/2024"))
     = Ok None.
Proof. split; vm_compute; reflexivity. Qed.

(** A row dated at [now] is in this week, and so is one dated seven days
    earlier to the millisecond; a row of the day before that is not, and a
    row without a date passes no period, not even an unnamed one. *)
Example filterByPeriod_this_week (f : SourceFile) :
  filterByPeriod f SampleHost.host noon5March2024
    [ booked "2024-03-05T12:00:00"; booked "2024-02-27T12:00:00";
      booked "2024-02-26"; booked "soon" ]
    (VString (str "this_week")) COLS.BOOKING_DATE
  = Ok [ booked "2024-03-05T12:00:00"; booked "2024-02-27T12:00:00" ].
Proof. destruct f; vm_compute; reflexivity. Qed.

Example filterByPeriod_today_and_month (f : SourceFile) :
  filterByPeriod f SampleHost.host noon5March2024
    [ booked "2024-03-05"; booked "2024-03-06"; booked "2024-03-31";
      booked "2024-04-01"; booked "2024-02-29" ]
    (VString (str "today")) COLS.BOOKING_DATE
  = Ok [ booked "2024-03-05" ]
  /\ filterByPeriod f SampleHost.host noon5March2024
       [ booked "2024-03-05"; booked "2024-03-06"; booked "2024-03-31";
         booked "2024-04-01"; booked "2024-02-29" ]
       (VString (str "this_month")) COLS.BOOKING_DATE
     = Ok [ booked "2024-03-05"; booked "2024-03-06"; booked "2024-03-31" ].
Proof. destruct f; split; vm_compute; reflexivity. Qed.

Example filterByPeriod_unnamed_period (f : SourceFile) :
  filterByPeriod f SampleHost.host noon5March2024
    [ booked "1999-12-31"; booked "soon"; []; booked "2030-01-01" ]
    VUndefined COLS.BOOKING_DATE
  = Ok [ booked "1999-12-31"; booked "2030-01-01" ].
Proof. destruct f; vm_compute; reflexivity. Qed.

(** On this host the week starts seven times 24 hours before [now]. *)
Example oneWeekAgo_sample :
  oneWeekAgo SampleHost.host noon5March2024
  = Some (noon5March2024 - 7 * SampleHost.msPerDay).
Proof. vm_compute; reflexivity. Qed.

(** Groups of equal count keep the order of [Object.entries]: labels that
    are array indices first, in ascending order, then the others as first
    met. *)
Example groupCount_ties_follow_key_order :
  groupCount [cluster "b"; cluster "10"; cluster "a"; cluster "2"]
             COLS.CLUSTER
  = Ok [ {| label := str "2"; count := CNum 1 |};
         {| label := str "10"; count := CNum 1 |};
         {| label := str "b"; count := CNum 1 |};
         {| label := str "a"; count := CNum 1 |} ].
Proof. vm_compute; reflexivity. Qed.

(** * Further properties *)

(** ** trim and includes *)

Lemma trimStart_no_leading_space (s : jsstring) :
  match trimStart s with
  | c :: _ => isWhiteSpace c = false
  | [] => True
  end.
Proof.
  induction s as [|c s IH]; simpl; [exact I|].
  destruct (isWhiteSpace c) eqn:E; [exact IH | exact E].
Qed.

Lemma trimStart_fixed (s : jsstring) :
  match s with
  | c :: _ => isWhiteSpace c = false
  | [] => True
  end ->
  trimStart s = s.
Proof. destruct s as [|c s]; simpl; [reflexivity | intros ->; reflexivity]. Qed.

Lemma trimStart_trimStart (s : jsstring) : trimStart (trimStart s) = trimStart s.
Proof. apply trimStart_fixed, trimStart_no_leading_space. Qed.

Lemma trimStart_snoc (l : jsstring) (c : N) :
  isWhiteSpace c = false -> trimStart (l ++ [c]) = trimStart l ++ [c].
Proof.
  intros E; induction l as [|d l IH]; simpl; [rewrite E; reflexivity|].
  destruct (isWhiteSpace d); [exact IH | reflexivity].
Qed.

Lemma trimEnd_cons (c : N) (s : jsstring) :
  isWhiteSpace c = false -> trimEnd (c :: s) = c :: trimEnd s.
Proof.
  intros E; unfold trimEnd; simpl.
  rewrite (trimStart_snoc _ _ E), rev_app_distr; reflexivity.
Qed.

Lemma trimEnd_trimEnd (s : jsstring) : trimEnd (trimEnd s) = trimEnd s.
Proof.
  unfold trimEnd; rewrite rev_involutive, trimStart_trimStart; reflexivity.
Qed.

Lemma trim_trim (s : jsstring) : trim (trim s) = trim s.
Proof.
  unfold trim.
  assert (E : trimStart (trimEnd (trimStart s)) = trimEnd (trimStart s)).
  { apply trimStart_fixed.
    pose proof (trimStart_no_leading_space s) as L.
    destruct (trimStart s) as [|c t]; [exact I|].
    rewrite (trimEnd_cons c t L); exact L. }
  rewrite E; apply trimEnd_trimEnd.
Qed.





(** ** getRows *)

Lemma setOwn_keys {B} (k : jsstring) (x : B) (o : list (jsstring * B)) :
  map fst (setOwn k x o)
  = if existsb (fun k' => jsstring_eqb k' k) (map fst o)
    then map fst o else map fst o ++ [k].
Proof.
  induction o as [|[k' y] o IH]; simpl; [reflexivity|].
  destruct (jsstring_eqb k' k); simpl; [reflexivity|].
  rewrite IH; destruct (existsb _ (map fst o)); reflexivity.
Qed.

Lemma assoc_setOwn {B} (k k' : jsstring) (x : B) (o : list (jsstring * B)) :
  assoc k' (setOwn k x o)
  = if jsstring_eqb k k' then Some x else assoc k' o.
Proof.
  induction o as [|[k0 y] o IH]; simpl.
  - destruct (jsstring_eqb k k'); reflexivity.
  - destruct (jsstring_eqb k0 k) eqn:E; simpl.
    + apply jsstring_eqb_eq in E; subst k0.
      destruct (jsstring_eqb k k'); reflexivity.
    + destruct (jsstring_eqb k0 k') eqn:E'; [|exact IH].
      apply jsstring_eqb_eq in E'; subst k0.
      assert (E2 : jsstring_eqb k k' = false).
      { apply jsstring_eqb_neq; apply jsstring_eqb_neq in E; congruence. }
      rewrite E2; reflexivity.
Qed.

(** The keys an object gets from a list of entries, on top of the keys it
    has: each new name once, in order of first appearance. *)
Lemma fromEntries_keys (entries : list (jsstring * jsstring)) (o : Row) :
  map fst (fold_left (fun o e => setOwn (fst e) (snd e) o) entries o)
  = fold_left
      (fun ks k => if existsb (fun k' => jsstring_eqb k' k) ks
                   then ks else ks ++ [k])
      (map fst entries) (map fst o).
Proof.
  revert o; induction entries as [|e entries IH]; intros o; simpl;
    [reflexivity|].
  rewrite IH, setOwn_keys; reflexivity.
Qed.

Lemma entriesFrom_keys (i : nat) (headers r : list jsstring) :
  map fst (entriesFrom i headers r) = headers.
Proof.
  revert i; induction headers as [|h headers IH]; intros i; simpl;
    [reflexivity | rewrite IH; reflexivity].
Qed.

Lemma distinct_keys_NoDup (ks acc : list jsstring) :
  NoDup acc ->
  NoDup (fold_left
           (fun ks k => if existsb (fun k' => jsstring_eqb k' k) ks
                        then ks else ks ++ [k])
           ks acc)
  /\ forall k, In k (fold_left
                       (fun ks k => if existsb (fun k' => jsstring_eqb k' k) ks
                                    then ks else ks ++ [k])
                       ks acc)
               <-> In k acc \/ In k ks.
Proof.
  revert acc; induction ks as [|k0 ks IH]; intros acc N; simpl.
  - split; [exact N | intros k; tauto].
  - destruct (existsb (fun k' => jsstring_eqb k' k0) acc) eqn:E.
    + destruct (IH acc N) as [N' M]; split; [exact N'|].
      intros k; rewrite M.
      apply existsb_exists in E; destruct E as (k' & I & E).
      apply jsstring_eqb_eq in E; subst k'.
      split; [tauto | intros [X|[<-|X]]; tauto].
    + assert (Fresh : ~ In k0 acc).
      { intros I.
        assert (X : existsb (fun k' => jsstring_eqb k' k0) acc = true)
          by (apply existsb_exists; exists k0; split;
              [exact I | apply jsstring_eqb_refl]).
        congruence. }
      assert (N1 : NoDup (acc ++ [k0])).
      { apply NoDup_app; [exact N | repeat constructor; simpl; tauto|].
        intros k I [<-|[]]; exact (Fresh I). }
      destruct (IH _ N1) as [N' M]; split; [exact N'|].
      intros k; rewrite M, in_app_iff; simpl; tauto.
Qed.

(** X1.  A sheet with a header row gives one record per data row; the
    records all have the same keys in the same order, each key once, and
    the keys are the trimmed headers. *)
Theorem getRows_shared_keys (header : list jsstring)
    (rows : list (list jsstring)) :
  List.length (getRows (Some (header :: rows))) = List.length rows
  /\ forall rec : Row,
       In rec (getRows (Some (header :: rows))) ->
       NoDup (map fst rec)
       /\ (forall k, In k (map fst rec) <-> In k (map trim header))
       /\ forall rec' : Row,
            In rec' (getRows (Some (header :: rows))) ->
            map fst rec = map fst rec'.
Proof.
  simpl; split; [apply length_map|].
  assert (K : forall r,
             map fst (fromEntries (entriesFrom 0 (map trim header) r))
             = fold_left
                 (fun ks k => if existsb (fun k' => jsstring_eqb k' k) ks
                              then ks else ks ++ [k])
                 (map trim header) []).
  { intros r; unfold fromEntries.
    rewrite (fromEntries_keys _ []), entriesFrom_keys; reflexivity. }
  intros rec I; apply in_map_iff in I; destruct I as (r & <- & _).
  rewrite K.
  destruct (distinct_keys_NoDup (map trim header) [] (NoDup_nil _)) as [N M].
  split; [exact N|].
  split; [intros k; rewrite M; simpl; tauto|].
  intros rec' I'; apply in_map_iff in I'; destruct I' as (r' & <- & _).
  rewrite K; reflexivity.
Qed.

Lemma assoc_app_fresh {B} (k : jsstring) (l1 l2 : list (jsstring * B)) :
  ~ In k (map fst l1) -> assoc k (l1 ++ l2) = assoc k l2.
Proof.
  induction l1 as [|[k' b] l1 IH]; simpl; [reflexivity|].
  intros F; destruct (jsstring_eqb k' k) eqn:E.
  - apply jsstring_eqb_eq in E; subst k'; exfalso; apply F; left; reflexivity.
  - apply IH; intros I; apply F; right; exact I.
Qed.

(** In an object built from entries, a name holds the value of its last
    entry. *)
Lemma assoc_fromEntries (k : jsstring) (entries : list (jsstring * jsstring))
    (o : Row) :
  assoc k (fold_left (fun o e => setOwn (fst e) (snd e) o) entries o)
  = match assoc k (rev entries) with
    | Some x => Some x
    | None => assoc k o
    end.
Proof.
  revert o; induction entries as [|[k0 b] entries IH]; intros o; simpl;
    [reflexivity|].
  rewrite IH, assoc_app_single, assoc_setOwn; simpl.
  destruct (assoc k (rev entries)); [reflexivity|].
  destruct (jsstring_eqb k0 k); reflexivity.
Qed.

Lemma entriesFrom_app (i : nat) (a b r : list jsstring) :
  entriesFrom i (a ++ b) r
  = entriesFrom i a r ++ entriesFrom (i + List.length a) b r.
Proof.
  revert i; induction a as [|h a IH]; intros i; simpl.
  - rewrite Nat.add_0_r; reflexivity.
  - rewrite IH, Nat.add_succ_r; reflexivity.
Qed.

Lemma cellAt_nth (r : list jsstring) (i : nat) : cellAt r i = trim (nth i r []).
Proof.
  unfold cellAt; revert i; induction r as [|c r IH]; intros [|i]; simpl;
    try reflexivity.
  apply IH.
Qed.

(** X2.  In the record of a data row, a header reads the trimmed cell of
    the last column that carries it, the empty text when the row is too
    short to have that column. *)
Theorem getRows_cell (before after : list jsstring) (h : jsstring)
    (rows : list (list jsstring)) (n : nat) (r : list jsstring) :
  ~ In (trim h) (map trim after) ->
  nth_error rows n = Some r ->
  exists rec : Row,
    nth_error (getRows (Some ((before ++ h :: after) :: rows))) n = Some rec
    /\ getField rec (trim h)
       = VString (trim (nth (List.length before) r [])).
Proof.
  intros Last R; simpl.
  eexists; split; [apply map_nth_error; exact R|].
  unfold getField, fromEntries.
  rewrite assoc_fromEntries, map_app, entriesFrom_app; simpl.
  rewrite rev_app_distr; simpl; rewrite <- app_assoc; simpl.
  rewrite assoc_app_fresh.
  - simpl; rewrite jsstring_eqb_refl, length_map, cellAt_nth; reflexivity.
  - rewrite map_rev, entriesFrom_keys, <- in_rev; exact Last.
Qed.

Lemma getRows_cell_witness :
  exists rec : Row,
    nth_error (getRows (Some (([str "Cluster"] ++ str " Cluster " :: [])
                              :: [[str "A"; str " B "]])))
              0
    = Some rec
    /\ getField rec (trim (str " Cluster "))
       = VString (trim (nth (List.length [str "Cluster"])
                            [str "A"; str " B "] [])).
Proof.
  apply (getRows_cell [str "Cluster"] [] (str " Cluster ")
                      [[str "A"; str " B "]] 0 [str "A"; str " B "]).
  - simpl; tauto.
  - reflexivity.
Defined.

Lemma setOwn_Forall {B} (P : jsstring * B -> Prop) (k : jsstring) (x : B)
    (o : list (jsstring * B)) :
  P (k, x) -> Forall P o -> Forall P (setOwn k x o).
Proof.
  intros Pk F; induction F as [|[k' y] o Py F IH]; simpl;
    [repeat constructor; exact Pk|].
  destruct (jsstring_eqb k' k) eqn:E.
  - apply jsstring_eqb_eq in E; subst k'; constructor; assumption.
  - constructor; assumption.
Qed.

(** X3.  Every key and every cell of a loaded record is trimmed already:
    trimming it again changes nothing. *)
Theorem getRows_cells_trimmed (values : option (list (list jsstring)))
    (rec : Row) (k c : jsstring) :
  In rec (getRows values) -> In (k, c) rec -> trim k = k /\ trim c = c.
Proof.
  destruct values as [[|header rows]|]; simpl; try tauto.
  intros I; apply in_map_iff in I; destruct I as (r & <- & _).
  set (P := fun e : jsstring * jsstring =>
              trim (fst e) = fst e /\ trim (snd e) = snd e).
  assert (E : forall i hs, Forall P (entriesFrom i (map trim hs) r)).
  { intros i hs; revert i; induction hs as [|h hs IH]; intros i; simpl;
      constructor; [|apply IH].
    split; simpl; [apply trim_trim | unfold cellAt; apply trim_trim]. }
  assert (F : forall es o, Forall P es -> Forall P o ->
                Forall P (fold_left (fun o e => setOwn (fst e) (snd e) o)
                                    es o)).
  { induction es as [|[k0 b] es IH]; intros o Fe Fo; simpl; [exact Fo|].
    inversion Fe as [|? ? Pe Fe']; subst.
    apply IH; [exact Fe' | apply setOwn_Forall; assumption]. }
  intros J.
  apply (proj1 (Forall_forall P _) (F _ [] (E 0%nat header) (Forall_nil P))
               (k, c) J).
Qed.

Lemma getRows_cells_trimmed_witness :
  trim (str "Cluster") = str "Cluster" /\ trim (str "A") = str "A".
Proof.
  apply (getRows_cells_trimmed sampleValues
           [(str "Cluster", str "A"); (str "Booking Date", str "2024-03-05")]);
    simpl; auto.
Defined.

(** ** The two versions of parseDate *)

(** X4.  The two files return the same date for every input, except
    where the first and the last component both pass their year test. *)
Theorem parseDate_files_agree (H : DateHost) (v : value) :
  bothYearTests (trim (toString v)) = false ->
  parseDate index_js H v = parseDate part_000 H v.
Proof.
  intros B; rewrite !parseDate_Ok; f_equal; unfold parsedDate.
  destruct (truthy v); [|reflexivity].
  unfold bothYearTests in B.
  destruct (trim (toString v)) as [|u clean]; [reflexivity|].
  destruct (Date_parse H (u :: clean)); [reflexivity|].
  destruct (splitOn isDateSeparator (u :: clean)) as [|a [|b [|c rest]]];
    try reflexivity.
  f_equal; unfold dateComponents.
  destruct (yearFirstTest (trim a)), (yearLastTest (trim c));
    try reflexivity; discriminate B.
Qed.

Lemma parseDate_files_agree_witness :
  parseDate index_js SampleHost.host (VString (str "13/03/2024"))
  = parseDate part_000 SampleHost.host (VString (str "13/03/2024")).
Proof.
  apply (parseDate_files_agree SampleHost.host (VString (str "13/03/2024"))).
  vm_compute; reflexivity.
Defined.

(** ** parseNumber on signs *)

Lemma numberUnit_cases (c : N) :
  isNumberUnit c = true -> (48 <= c <= 57)%N \/ c = 46%N \/ c = 45%N.
Proof.
  unfold isNumberUnit; rewrite !orb_true_iff, !N.eqb_eq.
  intros [[D|E]|E]; [left; apply digit_bounds; exact D | auto | auto].
Qed.

Lemma numberUnit_not_space (c : N) :
  isNumberUnit c = true -> isWhiteSpace c = false.
Proof.
  intros U; apply numberUnit_cases in U; unfold isWhiteSpace.
  repeat match goal with
         | |- context [(?x <=? ?y)%N] => destruct (N.leb_spec x y)
         | |- context [(?x =? ?y)%N] => destruct (N.eqb_spec x y)
         end; simpl; try reflexivity; lia.
Qed.

Lemma trim_without_spaces (s : jsstring) :
  Forall (fun c => isWhiteSpace c = false) s -> trim s = s.
Proof.
  intros F; unfold trim, trimEnd.
  assert (T : forall t, Forall (fun c => isWhiteSpace c = false) t ->
                trimStart t = t).
  { intros t Ft; apply trimStart_fixed; destruct Ft; [exact I | assumption]. }
  rewrite (T s F), (T (rev s)), rev_involutive;
    [reflexivity | apply Forall_rev; exact F].
Qed.

Lemma nonDecimalLiteral_units (t : jsstring) :
  Forall (fun c => isNumberUnit c = true) t -> nonDecimalLiteral t = None.
Proof.
  intros F; destruct F as [|z t _ F]; [reflexivity|].
  destruct F as [|p t Up F]; [reflexivity|].
  destruct t as [|d t]; [reflexivity|].
  apply numberUnit_cases in Up; unfold nonDecimalLiteral.
  assert (X : forall k : N, (58 <= k)%N -> (p =? k)%N = false)
    by (intros k G; apply N.eqb_neq; lia).
  rewrite !X by lia; reflexivity.
Qed.

Lemma dropWhile_keeps_minus (u : jsstring) :
  In 45%N u -> In 45%N (dropWhile isDigit u).
Proof.
  induction u as [|c u IH]; simpl; [tauto|].
  destruct (isDigit c) eqn:D; [|intros X; exact X].
  intros [->|I]; [discriminate D | exact (IH I)].
Qed.

Lemma dropWhile_head {A} (p : A -> bool) (l : list A) (x : A) (r : list A) :
  dropWhile p l = x :: r -> p x = false.
Proof.
  induction l as [|y l IH]; simpl; [discriminate|].
  destruct (p y) eqn:E; [exact IH | intros X; injection X as -> _; exact E].
Qed.

Lemma dropWhile_Forall {A} (P : A -> Prop) (p : A -> bool) (l : list A) :
  Forall P l -> Forall P (dropWhile p l).
Proof.
  induction 1 as [|x l Px F IH]; simpl; [constructor|].
  destruct (p x); [exact IH | constructor; assumption].
Qed.

(** A text of number units that still holds a minus sign has no tail an
    exponent part could match. *)
Lemma exponentPart_minus (t : jsstring) :
  Forall (fun c => isNumberUnit c = true) t ->
  In 45%N (dropWhile isDigit t) ->
  exponentPart (dropWhile isDigit t) = None.
Proof.
  intros F I.
  pose proof (dropWhile_Forall _ isDigit t F) as F'.
  destruct (dropWhile isDigit t) as [|c r] eqn:E; [destruct I|].
  inversion F' as [|? ? Uc _]; subst.
  apply numberUnit_cases in Uc; unfold exponentPart.
  destruct (N.eqb_spec c 101); [lia|].
  destruct (N.eqb_spec c 69); [lia | reflexivity].
Qed.

Lemma unsignedDecimal_minus (u : jsstring) :
  Forall (fun c => isNumberUnit c = true) u -> In 45%N u ->
  unsignedDecimal u = None.
Proof.
  intros F I; unfold unsignedDecimal.
  pose proof (dropWhile_keeps_minus u I) as I'.
  pose proof (dropWhile_Forall _ isDigit u F) as F'.
  pose proof (exponentPart_minus u F I') as X.
  destruct (dropWhile isDigit u) as [|c r] eqn:E; [destruct I'|].
  destruct (N.eqb_spec c 46) as [->|NE].
  - inversion F' as [|? ? _ Fr]; subst.
    destruct I' as [I'|I']; [discriminate I'|].
    rewrite (exponentPart_minus r Fr (dropWhile_keeps_minus r I')).
    destruct (takeWhile isDigit u ++ takeWhile isDigit r); reflexivity.
  - rewrite X.
    destruct (takeWhile isDigit u ++ []); reflexivity.
Qed.

Lemma units_not_Infinity (u : jsstring) :
  Forall (fun c => isNumberUnit c = true) u ->
  jsstring_eqb u (str "Infinity") = false.
Proof.
  intros F; apply jsstring_eqb_neq; intros ->.
  inversion F as [|? ? U _]; discriminate U.
Qed.

Lemma keepOnly_Forall (keep : N -> bool) (s : jsstring) :
  Forall (fun c => keep c = true) (keepOnly keep s).
Proof.
  apply Forall_forall; intros c I; apply keepOnly_units in I; tauto.
Qed.

(** X5.  A minus sign anywhere but in front leaves no number: a cell such
    as a trailing-minus amount or a range parses to 0. *)
Theorem parseNumber_inner_minus (s x y : jsstring) :
  keepOnly isNumberUnit s = x ++ 45%N :: y -> x <> [] ->
  parseNumber (VString s) = Finite 0.
Proof.
  intros E NE; unfold parseNumber.
  destruct s as [|c0 s0]; [reflexivity|].
  simpl truthy; simpl negb; cbv iota; simpl toString.
  pose proof (keepOnly_Forall isNumberUnit (c0 :: s0)) as F.
  rewrite E in *.
  assert (N_ : Number (x ++ 45%N :: y) = NaN); [|rewrite N_; reflexivity].
  unfold Number.
  rewrite trim_without_spaces
    by (eapply Forall_impl; [|exact F]; apply numberUnit_not_space).
  destruct x as [|c x]; [contradiction|]; simpl app in *.
  cbv beta iota; rewrite (nonDecimalLiteral_units _ F).
  inversion F as [|? ? Uc F']; subst.
  assert (Inner : In 45%N (x ++ 45%N :: y))
    by (apply in_or_app; right; left; reflexivity).
  unfold strDecimalLiteral, sign.
  destruct (N.eqb_spec c 45) as [->|N45].
  - rewrite (units_not_Infinity _ F'), (unsignedDecimal_minus _ F' Inner).
    reflexivity.
  - destruct (N.eqb_spec c 43) as [->|N43]; [discriminate Uc|].
    rewrite (units_not_Infinity _ F), (unsignedDecimal_minus _ F);
      [reflexivity | right; exact Inner].
Qed.

Lemma parseNumber_inner_minus_witness :
  parseNumber (VString (str "50,000-")) = Finite 0.
Proof.
  apply (parseNumber_inner_minus (str "50,000-") (str "50000") []);
    [reflexivity | discriminate].
Defined.




(** ** filterByPeriod and the periods *)

Lemma filter_filter_same {A} (p : A -> bool) (l : list A) :
  filter p (filter p l) = filter p l.
Proof.
  induction l as [|x l IH]; simpl; [reflexivity|].
  destruct (p x) eqn:E; simpl; [rewrite E, IH; reflexivity | exact IH].
Qed.

Lemma filter_narrower_Subsequence {A} (p q : A -> bool) (l : list A) :
  (forall x, p x = true -> q x = true) ->
  Subsequence (filter p l) (filter q l).
Proof.
  intros PQ; induction l as [|x l IH]; simpl; [constructor|].
  destruct (p x) eqn:E.
  - rewrite (PQ x E); constructor; exact IH.
  - destruct (q x); [constructor|]; exact IH.
Qed.

(** X7.  A named period only narrows what an unnamed period keeps, the
    rows with a date; and filtering the kept rows again, at the same
    instant, keeps them all. *)
Theorem filterByPeriod_narrows (f : SourceFile) (H : DateHost) (now : Z)
    (data : list Row) (period : value) (dateColumn : jsstring) :
  exists kept dated : list Row,
    filterByPeriod f H now data period dateColumn = Ok kept
    /\ filterByPeriod f H now data VUndefined dateColumn = Ok dated
    /\ Subsequence kept dated
    /\ filterByPeriod f H now kept period dateColumn = Ok kept.
Proof.
  exists (filter (keeps f H now period dateColumn) data),
         (filter (keeps f H now VUndefined dateColumn) data).
  rewrite !filterByPeriod_filter, filter_filter_same.
  repeat split.
  apply filter_narrower_Subsequence.
  intros row; unfold keeps.
  destruct (parsedDate f H (getField row dateColumn)); [|discriminate].
  reflexivity.
Qed.

(** ** groupCount and the order of the rows *)

Lemma occurrences_Permutation (l : jsstring) (ls ls' : list jsstring) :
  Permutation ls ls' -> occurrences l ls = occurrences l ls'.
Proof.
  unfold occurrences; induction 1 as [|x ls ls' _ IH|x y ls|]; simpl;
    try reflexivity; try congruence.
  - destruct (jsstring_eqb l x); simpl; lia.
  - destruct (jsstring_eqb l x), (jsstring_eqb l y); reflexivity.
Qed.

(** X8.  With plain names, the order of the rows decides nothing but
    the order of the groups: a rearranged sheet gives the same groups,
    rearranged. *)
Theorem groupCount_order_independent (data data' : list Row)
    (key : jsstring) :
  plainName key ->
  Forall (fun row => plainName (labelOf row key)) data ->
  Permutation data data' ->
  exists groups groups' : list Group,
    groupCount data key = Ok groups
    /\ groupCount data' key = Ok groups'
    /\ Permutation groups groups'.
Proof.
  intros P F Perm.
  pose proof (Forall_rearranged _ _ _ Perm F) as F'.
  destruct (groupCount_plain_names data key P F)
    as (g & E & N & M & C & _).
  destruct (groupCount_plain_names data' key P F')
    as (g' & E' & N' & M' & C' & _).
  exists g, g'; split; [exact E|]; split; [exact E'|].
  set (ls := map (fun row => labelOf row key) data) in *.
  set (ls' := map (fun row => labelOf row key) data') in *.
  assert (PL : Permutation ls ls') by (apply Permutation_map; exact Perm).
  assert (Half : forall (a b : list Group) (la lb : list jsstring),
            (forall l, In l (map label b) <-> In l lb) ->
            NoDup (map label b) ->
            (forall x, In x a -> count x = CNum (occurrences (label x) la)
                                 /\ 1 <= occurrences (label x) la) ->
            (forall x, In x b -> count x = CNum (occurrences (label x) lb)
                                 /\ 1 <= occurrences (label x) lb) ->
            (forall l, occurrences l la = occurrences l lb) ->
            forall x, In x a -> In x b).
  { intros a b la lb Mb Nb Ca Cb O x I.
    destruct (Ca x I) as [Cx One].
    assert (J : In (label x) (map label b)).
    { apply Mb, occurrences_In; rewrite <- O; exact One. }
    apply in_map_iff in J; destruct J as (y & L & J).
    destruct (Cb y J) as [Cy _].
    replace x with y; [exact J|].
    destruct x, y; simpl in *; subst.
    rewrite O; reflexivity. }
  apply NoDup_Permutation.
  - apply (NoDup_map_inv label); exact N.
  - apply (NoDup_map_inv label); exact N'.
  - intros x; split.
    + apply (Half g g' ls ls'); try assumption.
      intros l; apply occurrences_Permutation; exact PL.
    + apply (Half g' g ls' ls); try assumption.
      intros l; symmetry; apply occurrences_Permutation; exact PL.
Qed.

Lemma groupCount_order_independent_witness :
  exists groups groups' : list Group,
    groupCount [cluster "A"; cluster "B"; cluster "A"] COLS.CLUSTER
    = Ok groups
    /\ groupCount [cluster "B"; cluster "A"; cluster "A"] COLS.CLUSTER
       = Ok groups'
    /\ Permutation groups groups'.
Proof.
  apply (groupCount_order_independent
           [cluster "A"; cluster "B"; cluster "A"]
           [cluster "B"; cluster "A"; cluster "A"] COLS.CLUSTER).
  - reflexivity.
  - repeat constructor.
  - apply perm_swap.
Defined.

(** ** GET /bookings and GET /customer *)

Lemma orElse_empty_plain (r : Row) (column : jsstring) :
  plainName column ->
  orElse (getField r column) (VString []) = VString (cellText r column).
Proof.
  intros P; unfold cellText, getField.
  destruct (assoc column r) as [[|c cell]|]; [reflexivity | reflexivity|].
  rewrite P; reflexivity.
Qed.

Lemma text_parameter (v : value) :
  truthy v = true -> isText v = true -> v = VString (toString v).
Proof. destruct v; simpl; try discriminate; reflexivity. Qed.

Lemma filter_all {A} (p : A -> bool) (l : list A) :
  (forall x, p x = true) -> filter p l = l.
Proof.
  intros T; induction l as [|x l IH]; simpl; [reflexivity|].
  rewrite T, IH; reflexivity.
Qed.

Lemma filter_both {A} (p q : A -> bool) (l : list A) :
  filter q (filter p l) = filter (fun x => p x && q x) l.
Proof.
  induction l as [|x l IH]; simpl; [reflexivity|].
  destruct (p x); simpl; [destruct (q x); rewrite IH; reflexivity | exact IH].
Qed.

(** A filter that applies only when its parameter is given. *)
Lemma optional_filter (v : value) (callback : Row -> result bool)
    (p : Row -> bool) (data : list Row) :
  (truthy v = true -> forall r, callback r = Ok (p r)) ->
  (if truthy v then filterR callback data else Ok data)
  = Ok (filter (fun r => negb (truthy v) || p r) data).
Proof.
  intros E; destruct (truthy v); simpl.
  - apply filterR_Ok; intros r; apply E; reflexivity.
  - rewrite filter_all; reflexivity.
Qed.

Lemma whenPeriod_filter (f : SourceFile) (H : DateHost) (now : Z)
    (period : value) (data : list Row) :
  whenPeriod f H now period data
  = Ok (filter (fun r => negb (truthy period)
                         || keeps f H now period COLS.BOOKING_DATE r) data).
Proof.
  unfold whenPeriod; destruct (truthy period); simpl.
  - apply filterByPeriod_filter.
  - rewrite filter_all; reflexivity.
Qed.

Lemma cellEquals_text (column : jsstring) (wanted : value) (r : Row) :
  plainName column -> truthy wanted = true -> isText wanted = true ->
  cellEquals column wanted r
  = Ok (jsstring_eqb (toLowerCase (cellText r column))
                     (toLowerCase (toString wanted))).
Proof.
  intros P T X; unfold cellEquals.
  rewrite (orElse_empty_plain r column P), (text_parameter wanted T X).
  reflexivity.
Qed.

Lemma cellIncludes_text (column : jsstring) (wanted : value) (r : Row) :
  plainName column -> truthy wanted = true -> isText wanted = true ->
  cellIncludes column wanted r
  = Ok (includes (toLowerCase (cellText r column))
                 (toLowerCase (toString wanted))).
Proof.
  intros P T X; unfold cellIncludes.
  rewrite (orElse_empty_plain r column P), (text_parameter wanted T X).
  reflexivity.
Qed.

Lemma SOLD_STATUS_plain (f : SourceFile) : plainName (COLS.SOLD_STATUS f).
Proof. destruct f; reflexivity. Qed.

Lemma bookings_served (f : SourceFile) (H : DateHost) (now : Z)
    (cluster status period : value) (rows : list Row) :
  isText cluster = true -> isText status = true ->
  serve (bookings f H now cluster status period) (Ok rows)
  = listed (filter (bookingWanted f H now cluster status period) rows).
Proof.
  intros TC TS; unfold bookings, listed; simpl serve; simpl bind.
  rewrite whenPeriod_filter; simpl bind.
  rewrite (optional_filter cluster _
             (fun r => jsstring_eqb (toLowerCase (cellText r COLS.CLUSTER))
                                    (toLowerCase (toString cluster))))
    by (intros T r; apply cellEquals_text; [reflexivity | exact T | exact TC]).
  simpl bind.
  rewrite (optional_filter status _
             (fun r => includes
                         (toLowerCase (cellText r (COLS.SOLD_STATUS f)))
                         (toLowerCase (toString status))))
    by (intros T r; apply cellIncludes_text;
        [apply SOLD_STATUS_plain | exact T | exact TS]).
  simpl bind; rewrite !filter_both; unfold orFail.
  rewrite (filter_ext _ (bookingWanted f H now cluster status period));
    [reflexivity|].
  intros r; unfold bookingWanted; rewrite andb_assoc; reflexivity.
Qed.





Lemma customer_served (mobile unit : value) (rows : list Row) :
  isText mobile = true -> isText unit = true ->
  truthy mobile || truthy unit = true ->
  run (customer mobile unit) (Ok rows)
  = found (filter (customerWanted mobile unit) rows).
Proof.
  intros TM TU Given; unfold customer, found.
  assert (G : negb (truthy mobile) && negb (truthy unit) = false).
  { destruct (truthy mobile), (truthy unit); try reflexivity.
    discriminate Given. }
  rewrite G; simpl run; simpl bind.
  assert (M : (if truthy mobile
               then m <- onString mobile (keepOnly isDigit) ;;
                    filterR
                      (fun r =>
                         Ok (includes
                               (keepOnly isDigit
                                  (toString (orElse (getField r COLS.MOBILE)
                                                    (VString []))))
                               m))
                      rows
               else Ok rows)
              = Ok (filter
                      (fun r => negb (truthy mobile)
                                || includes
                                     (keepOnly isDigit
                                        (cellText r COLS.MOBILE))
                                     (keepOnly isDigit (toString mobile)))
                      rows)).
  { destruct (truthy mobile) eqn:T; simpl.
    - rewrite (text_parameter mobile T TM) at 1; simpl.
      apply filterR_Ok; intros r.
      rewrite (orElse_empty_plain r COLS.MOBILE); reflexivity.
    - rewrite filter_all; reflexivity. }
  rewrite M; simpl bind.
  rewrite (optional_filter unit _
             (fun r => jsstring_eqb (toLowerCase (cellText r COLS.UNIT_NO))
                                    (toLowerCase (toString unit)))).
  - simpl; rewrite filter_both; reflexivity.
  - intros T r; exact (cellEquals_text COLS.UNIT_NO unit r eq_refl T TU).
Qed.



(** X12.  A mobile parameter without a single digit, and no unit, lists
    the whole sheet: the digits asked for are the empty text, which every
    number contains. *)
Theorem customer_mobile_without_digits (mobile : jsstring) (unit : value)
    (rows : list Row) :
  mobile <> [] -> keepOnly isDigit mobile = [] -> truthy unit = false ->
  run (customer (VString mobile) unit) (Ok rows) = found rows.
Proof.
  intros NE D U.
  assert (TU : isText unit = true) by (destruct unit; try reflexivity;
                                       discriminate U).
  rewrite (customer_served (VString mobile) unit rows eq_refl TU)
    by (destruct mobile; [contradiction | reflexivity]).
  f_equal; apply filter_all; intros r; unfold customerWanted.
  simpl toString; rewrite D, U; simpl.
  assert (E : forall s, includes s [] = true) by (destruct s; reflexivity).
  rewrite E, orb_true_r; reflexivity.
Qed.

Lemma customer_mobile_without_digits_witness :
  run (customer (VString (str "n/a")) VUndefined)
      (Ok [[(COLS.MOBILE, str "+91 98765")]; [(COLS.MOBILE, str "12345")]])
  = found [[(COLS.MOBILE, str "+91 98765")]; [(COLS.MOBILE, str "12345")]].
Proof.
  apply (customer_mobile_without_digits (str "n/a") VUndefined);
    [discriminate | reflexivity | reflexivity].
Defined.

(** X13.  A parameter that arrives as an array or an object has no
    string method.  GET /customer then answers 500 whatever the sheet
    holds, and GET /bookings answers 500 as soon as one row reaches the
    cluster filter. *)
Theorem array_parameters_fail (f : SourceFile) (H : DateHost) (now : Z)
    (text : jsstring) (unit status period : value)
    (rows kept : list Row) (r : Row) :
  whenPeriod f H now period rows = Ok (r :: kept) ->
  serve (bookings f H now (VObject text) status period) (Ok rows)
  = failed "Failed to list bookings"
  /\ run (customer (VObject text) unit) (Ok rows)
     = ({| status := 500;
           body := ErrorBody (str "Failed to lookup customer") |}, 1%nat).
Proof.
  intros W; split.
  - unfold bookings, failed; simpl serve; simpl bind.
    rewrite W; simpl bind; simpl truthy; cbv iota.
    unfold filterR, cellEquals; simpl bind.
    rewrite (orElse_empty_plain r COLS.CLUSTER) by reflexivity.
    reflexivity.
  - reflexivity.
Qed.

Lemma array_parameters_fail_witness :
  serve (bookings index_js SampleHost.host noon5March2024
                  (VObject (str "A,B")) VUndefined VUndefined)
        (Ok [cluster "A"])
  = failed "Failed to list bookings"
  /\ run (customer (VObject (str "A,B")) VUndefined) (Ok [cluster "A"])
     = ({| status := 500;
           body := ErrorBody (str "Failed to lookup customer") |}, 1%nat).
Proof.
  apply (array_parameters_fail index_js SampleHost.host noon5March2024
           (str "A,B") VUndefined VUndefined VUndefined
           [cluster "A"] [] (cluster "A")).
  reflexivity.
Defined.

(** ** GET /revenue/summary *)

(** X14.  When the sheet has rows but the period keeps none of them,
    [index.js] answers 200 with zero totals and the revision answers 500:
    it reads the keys of a first row that is not there.  An empty sheet
    the revision answers with 200 and zero totals. *)
Theorem revenueSummary_empty_period (H : DateHost) (now : Z)
    (period : value) (rows : list Row) :
  truthy period = true -> rows <> [] ->
  filterByPeriod index_js H now rows period COLS.BOOKING_DATE = Ok [] ->
  filterByPeriod part_000 H now rows period COLS.BOOKING_DATE = Ok [] ->
  serve (revenueSummary index_js H now period) (Ok rows)
  = ({| code := 200;
        answer := Json {| revenue_period := period;
                          total_records := 0;
                          totals := zeroTotals |} |}, 1%nat)
  /\ serve (revenueSummary part_000 H now period) (Ok rows)
     = failed "Failed to get revenue summary"
  /\ serve (revenueSummary part_000 H now period) (Ok [])
     = ({| code := 200;
           answer := Json {| revenue_period := period;
                             total_records := 0;
                             totals := zeroTotals |} |}, 1%nat).
Proof.
  intros T NE E1 E2.
  unfold revenueSummary, whenPeriod, orElse, failed; rewrite T.
  simpl serve; simpl bind.
  destruct rows as [|r rows]; [contradiction|].
  rewrite E1, E2; simpl; repeat split; reflexivity.
Qed.

Lemma revenueSummary_empty_period_witness :
  serve (revenueSummary index_js SampleHost.host noon5March2024
                        (VString (str "today")))
        (Ok [booked "1999-12-31"])
  = ({| code := 200;
        answer := Json {| revenue_period := VString (str "today");
                          total_records := 0;
                          totals := zeroTotals |} |}, 1%nat)
  /\ serve (revenueSummary part_000 SampleHost.host noon5March2024
                           (VString (str "today")))
           (Ok [booked "1999-12-31"])
     = failed "Failed to get revenue summary"
  /\ serve (revenueSummary part_000 SampleHost.host noon5March2024
                           (VString (str "today")))
           (Ok [])
     = ({| code := 200;
           answer := Json {| revenue_period := VString (str "today");
                             total_records := 0;
                             totals := zeroTotals |} |}, 1%nat).
Proof.
  apply (revenueSummary_empty_period SampleHost.host noon5March2024
           (VString (str "today")) [booked "1999-12-31"]).
  - reflexivity.
  - discriminate.
  - vm_compute; reflexivity.
  - vm_compute; reflexivity.
Defined.

Lemma norm_empty : norm [] = [].
Proof. reflexivity. Qed.

Lemma resolveKey_configured (keys : list jsstring) (x : RevenueField) :
  In (fieldDefault x) keys ->
  (forall k, In k keys -> norm k = norm (fieldDefault x) ->
             k = fieldDefault x) ->
  resolveKey keys x = VString (fieldDefault x).
Proof.
  intros Present Only.
  assert (T : norm (fieldLabel x) <> [])
    by (destruct x; vm_compute; discriminate).
  assert (D : fieldLabel x = fieldDefault x) by (destruct x; reflexivity).
  unfold resolveKey; rewrite (findKey_order keys _ T), D.
  destruct (List.find (fun k => jsstring_eqb (norm k) (norm (fieldDefault x)))
                      keys) as [k|] eqn:F.
  - apply find_some in F; destruct F as [I E].
    apply jsstring_eqb_eq in E; rewrite (Only k I E).
    destruct x; reflexivity.
  - exfalso.
    pose proof (find_none _ _ F _ Present) as X; simpl in X.
    rewrite jsstring_eqb_refl in X; discriminate X.
Qed.

Lemma addRow_same_keys (key key' : RevenueField -> jsstring)
    (data : list Row) (t : Totals) :
  (forall x, key x = key' x) ->
  fold_left (addRow key) data t = fold_left (addRow key') data t.
Proof.
  intros E; revert t; induction data as [|r data IH]; intros t; simpl;
    [reflexivity|].
  rewrite IH; unfold addRow; rewrite !E; reflexivity.
Qed.

(** X15.  When the first row the period keeps carries the five configured
    headers, each the only key of its normal form, the revision resolves
    to those headers and answers exactly as [index.js] does. *)
Theorem revenueSummary_files_agree (H : DateHost) (now : Z) (period : value)
    (rows kept : list Row) (first : Row) :
  whenPeriod index_js H now period rows = Ok (first :: kept) ->
  whenPeriod part_000 H now period rows = Ok (first :: kept) ->
  configuredHeaders (map fst (Object_entries first)) ->
  serve (revenueSummary part_000 H now period) (Ok rows)
  = serve (revenueSummary index_js H now period) (Ok rows).
Proof.
  intros W1 W2 C; unfold revenueSummary; simpl serve.
  cbv beta iota delta [bind].
  destruct rows as [|r rows].
  { unfold whenPeriod in W1; destruct (truthy period); discriminate W1. }
  rewrite W1, W2; cbv beta iota delta [bind Object_keys nth_error].
  rewrite (addRow_same_keys _ fieldDefault); [reflexivity|].
  intros x; destruct (C x) as [Present Only].
  rewrite (resolveKey_configured _ x Present Only); reflexivity.
Qed.

Lemma revenueRow_configured :
  configuredHeaders (map fst (Object_entries (revenueRow "1,000"))).
Proof.
  intros x; split; [destruct x; simpl; tauto|].
  intros k I E; simpl in I.
  destruct I as [<-|[<-|[<-|[<-|[<-|[]]]]]]; destruct x;
    try reflexivity; vm_compute in E; discriminate E.
Qed.

Lemma revenueSummary_files_agree_witness :
  serve (revenueSummary part_000 SampleHost.host noon5March2024 VUndefined)
        (Ok [revenueRow "1,000"; revenueRow "250.50"])
  = serve (revenueSummary index_js SampleHost.host noon5March2024 VUndefined)
          (Ok [revenueRow "1,000"; revenueRow "250.50"]).
Proof.
  apply (revenueSummary_files_agree SampleHost.host noon5March2024
           VUndefined [revenueRow "1,000"; revenueRow "250.50"]
           [revenueRow "250.50"] (revenueRow "1,000")).
  - reflexivity.
  - reflexivity.
  - exact revenueRow_configured.
Defined.

(** ** GET /loan-status and the failures of the routes *)

Lemma groupCount_returns (data : list Row) (key : jsstring) :
  plainName key -> exists groups, groupCount data key = Ok groups.
Proof.
  intros P; unfold groupCount; rewrite (tally_plain data key [] P).
  eexists; reflexivity.
Qed.

(** X16.  On a sheet whose lender and loan-status cells are plain names,
    GET /loan-status answers 200 with the number of rows and two
    breakdowns whose counts each add up to that number. *)
Theorem loanStatus_counts_add_up (rows : list Row) :
  Forall (fun row => plainName (labelOf row COLS.HOME_LOAN_FINANCED_BY))
         rows ->
  Forall (fun row => plainName (labelOf row COLS.LOAN_STATUS)) rows ->
  exists financedBy status : list Group,
    serve loanStatus (Ok rows)
    = ({| code := 200;
          answer := Json {| loan_total_records := List.length rows;
                            financed_by := financedBy;
                            loan_status := status |} |}, 1%nat)
    /\ sumCounts (map count financedBy) = Z.of_nat (List.length rows)
    /\ sumCounts (map count status) = Z.of_nat (List.length rows).
Proof.
  intros F1 F2.
  destruct (groupCount_plain_names rows COLS.HOME_LOAN_FINANCED_BY
              eq_refl F1) as (g1 & E1 & _ & _ & _ & S1 & _).
  destruct (groupCount_plain_names rows COLS.LOAN_STATUS eq_refl F2)
    as (g2 & E2 & _ & _ & _ & S2 & _).
  exists g1, g2; split; [|split; assumption].
  unfold loanStatus; simpl serve; cbv beta iota delta [bind].
  rewrite E1, E2; reflexivity.
Qed.

Lemma loanStatus_counts_add_up_witness :
  exists financedBy status : list Group,
    serve loanStatus
          (Ok [ [(COLS.HOME_LOAN_FINANCED_BY, str "SBI");
                 (COLS.LOAN_STATUS, str "Sanctioned")];
                [(COLS.HOME_LOAN_FINANCED_BY, str "")] ])
    = ({| code := 200;
          answer := Json {| loan_total_records := 2;
                            financed_by := financedBy;
                            loan_status := status |} |}, 1%nat)
    /\ sumCounts (map count financedBy) = 2
    /\ sumCounts (map count status) = 2.
Proof.
  apply (loanStatus_counts_add_up
           [ [(COLS.HOME_LOAN_FINANCED_BY, str "SBI");
              (COLS.LOAN_STATUS, str "Sanctioned")];
             [(COLS.HOME_LOAN_FINANCED_BY, str "")] ]);
    repeat constructor.
Defined.

(** X17.  Every route that reads the sheet answers a failed read with
    500 and its own message, after that one read.  On a sheet that was
    read, GET /loan-status and GET /demand/details never answer 500; the
    latter lists one entry per row, in order. *)
Theorem routes_fail_with_the_read :
  (forall f H now cluster status period e,
     serve (bookings f H now cluster status period) (Throw e)
     = failed "Failed to list bookings")
  /\ (forall f H now period e,
        serve (revenueSummary f H now period) (Throw e)
        = failed "Failed to get revenue summary")
  /\ (forall e, serve loanStatus (Throw e)
                = failed "Failed to get loan status")
  /\ (forall e, serve demandDetails (Throw e)
                = failed "Failed to get demand details")
  /\ (forall f H now period e,
        run (bookingsSummary f H now period) (Throw e)
        = ({| status := 500;
              body := ErrorBody (str "Failed to get bookings summary") |},
           1%nat))
  /\ (forall mobile unit e,
        truthy mobile || truthy unit = true ->
        run (customer mobile unit) (Throw e)
        = ({| status := 500;
              body := ErrorBody (str "Failed to lookup customer") |},
           1%nat))
  /\ (forall rows, exists body,
        serve loanStatus (Ok rows)
        = ({| code := 200; answer := Json body |}, 1%nat))
  /\ (forall rows,
        serve demandDetails (Ok rows)
        = ({| code := 200;
              answer := Json {| demand_count := List.length rows;
                                demand_entries := map demandEntry rows |} |},
           1%nat)).
Proof.
  split; [intros; reflexivity|].
  split; [intros f H now period e; destruct f; reflexivity|].
  split; [intros; reflexivity|].
  split; [intros; reflexivity|].
  split; [intros; reflexivity|].
  split.
  { intros mobile unit e G; unfold customer.
    destruct (truthy mobile), (truthy unit); try discriminate G;
      reflexivity. }
  split.
  - intros rows.
    destruct (groupCount_returns rows COLS.HOME_LOAN_FINANCED_BY eq_refl)
      as [g1 E1].
    destruct (groupCount_returns rows COLS.LOAN_STATUS eq_refl) as [g2 E2].
    eexists; unfold loanStatus; simpl serve; cbv beta iota delta [bind].
    rewrite E1, E2; reflexivity.
  - intros rows; unfold demandDetails; simpl serve.
    cbv beta iota delta [bind orFail]; rewrite length_map; reflexivity.
Qed.

(** ** GET /bookings/summary beside GET /bookings *)

Lemma statusIncludes_text (column word : jsstring) (r : Row) :
  plainName column ->
  statusIncludes column word r
  = Ok (includes (toUpperCase (cellText r column)) word).
Proof.
  intros P; unfold statusIncludes.
  rewrite (orElse_empty_plain r column P); reflexivity.
Qed.

Lemma filter_length_le {A} (p : A -> bool) (l : list A) :
  (List.length (filter p l) <= List.length l)%nat.
Proof.
  induction l as [|x l IH]; simpl; [lia|].
  destruct (p x); simpl; lia.
Qed.

Lemma filter_narrower_length {A} (p q : A -> bool) (l : list A) :
  (forall x, p x = true -> q x = true) ->
  (List.length (filter p l) <= List.length (filter q l))%nat.
Proof.
  intros PQ; induction l as [|x l IH]; simpl; [lia|].
  destruct (p x) eqn:E.
  - rewrite (PQ x E); simpl; lia.
  - destruct (q x); simpl; lia.
Qed.

(** X18.  For a period given as a text, the summary of a sheet that was
    read is a 200 whose [total_bookings] is the number of rows GET
    /bookings lists for that period alone, and whose tallies satisfy
    [unsold <= sold <= total_bookings]. *)
Theorem bookingsSummary_beside_bookings (f : SourceFile) (H : DateHost)
    (now : Z) (period : jsstring) (rows : list Row) :
  period <> [] ->
  exists (l : list Row) (sold unsold : nat) (groups : list Group),
    serve (bookings f H now VUndefined VUndefined (VString period)) (Ok rows)
    = listed l
    /\ run (bookingsSummary f H now (VString period)) (Ok rows)
       = ({| status := 200;
             body := SummaryBody (VString period) (List.length l)
                                 sold unsold groups |}, 1%nat)
    /\ (unsold <= sold <= List.length l)%nat.
Proof.
  intros NE.
  set (l := filter (keeps f H now (VString period) COLS.BOOKING_DATE) rows).
  destruct (groupCount_returns l COLS.CLUSTER eq_refl) as [groups G].
  set (isSold := fun r => includes (toUpperCase
                                      (cellText r (COLS.SOLD_STATUS f)))
                                   (str "SOLD")).
  set (isUnsold := fun r => includes (toUpperCase
                                        (cellText r (COLS.SOLD_STATUS f)))
                                     (str "UNSOLD")).
  exists l, (List.length (filter isSold l)),
         (List.length (filter isUnsold l)), groups.
  split; [|split].
  - rewrite (bookings_served f H now VUndefined VUndefined (VString period)
               rows eq_refl eq_refl).
    f_equal; apply filter_ext; intros r; unfold bookingWanted.
    destruct period; [contradiction|]; simpl.
    rewrite !andb_true_r; reflexivity.
  - unfold bookingsSummary; simpl run; cbv beta iota delta [bind].
    rewrite filterByPeriod_filter; fold l.
    rewrite (filterR_Ok _ isSold)
      by (intros r; apply statusIncludes_text, SOLD_STATUS_plain).
    rewrite (filterR_Ok _ isUnsold)
      by (intros r; apply statusIncludes_text, SOLD_STATUS_plain).
    rewrite G; reflexivity.
  - split; [|apply filter_length_le].
    apply filter_narrower_length; intros r; unfold isSold, isUnsold.
    apply (includes_suffix _ (str "UN") (str "SOLD")).
Qed.

Lemma bookingsSummary_beside_bookings_witness :
  exists (l : list Row) (sold unsold : nat) (groups : list Group),
    serve (bookings index_js SampleHost.host noon5March2024 VUndefined
                    VUndefined (VString (str "today")))
          (Ok [unsoldRow index_js])
    = listed l
    /\ run (bookingsSummary index_js SampleHost.host noon5March2024
                            (VString (str "today")))
           (Ok [unsoldRow index_js])
       = ({| status := 200;
             body := SummaryBody (VString (str "today")) (List.length l)
                                 sold unsold groups |}, 1%nat)
    /\ (unsold <= sold <= List.length l)%nat.
Proof.
  apply (bookingsSummary_beside_bookings index_js SampleHost.host
           noon5March2024 (str "today") [unsoldRow index_js]).
  discriminate.
Defined.

